(** * PersonalNoteManager (example 7, authorization): gatekeeping layer

    A shallow embedding of the request-gatekeeping code of
    [7-authorization]: key derivation ([app/config.py]), the Origin
    validation middleware ([app/security/middleware.py]), the middleware
    wiring ([main.py]), the role check ([app/security/auth.py]), the note
    service ([app/services/note_service.py]) and the two confirmation-guarded
    delete tools ([app/mcp_endpoints/routes.py]).

    Python [bytes] and [str] values are both represented by [string]
    (a sequence of 8-bit characters); a [str] is represented by its UTF-8
    encoding. *)

From Stdlib Require Import ZArith NArith Lia List Ascii String.
From stdpp Require Import base option list strings gmap pretty.

Local Open Scope string_scope.
Local Set Warnings "-register-all".

(** ** Python values, exceptions and results *)

Module Py.

(** Dynamically typed values, as far as the modelled code inspects them:
    JSON-like claim documents, confirmation payloads and response
    dictionaries. *)
Inductive value : Type :=
| VNone
| VBool (b : bool)
| VInt (z : Z)
| VStr (s : string)
| VList (l : list value)
| VDict (d : gmap string value).

(** Exceptions the modelled code raises or lets escape. *)
Inductive exn : Type :=
| HttpClientHTTPException (args : list value)
    (* http.client.HTTPException, a plain subclass of Exception *)
| UnicodeDecodeError
| ValueError (msg : string)
| AttributeError (msg : string)
| TypeError (msg : string)
| FileNotFoundError.

(** The outcome of running fallible code. *)
Inductive result (A : Type) : Type :=
| Return (a : A)
| Raise (e : exn).
Arguments Return {A} a.
Arguments Raise {A} e.

Definition bind {A B} (m : result A) (k : A -> result B) : result B :=
  match m with
  | Return a => k a
  | Raise e => Raise e
  end.

(** [x is True] and [x is False]: identity with the two bool singletons. *)
Definition is_True (v : value) : bool :=
  match v with VBool true => true | _ => false end.
Definition is_False (v : value) : bool :=
  match v with VBool false => true | _ => false end.

(** [d.get(k, default)] on an arbitrary receiver. *)
Definition get (recv : value) (k : string) (default : value) : result value :=
  match recv with
  | VDict d => Return (match d !! k with Some v => v | None => default end)
  | _ => Raise (AttributeError "object has no attribute 'get'")
  end.

(** The elements produced by [for x in v]. *)
Definition iter (v : value) : result (list value) :=
  match v with
  | VList l => Return l
  | VStr s => Return (map (fun c => VStr (String c EmptyString)) (list_ascii_of_string s))
  | VDict d => Return (map (fun kv => VStr (fst kv)) (map_to_list d))
  | _ => Raise (TypeError "object is not iterable")
  end.

End Py.

#[global] Instance result_ret : MRet Py.result := @Py.Return.
#[global] Instance result_bind : MBind Py.result := fun A B k m => Py.bind m k.

(** ** hashlib.sha256 (FIPS 180-4), on byte strings *)

Module Sha256.

  Local Open Scope N_scope.

Definition word_mod : N := 2 ^ 32.
Definition add32 (a b : N) : N := (a + b) mod word_mod.
Definition rotr (n x : N) : N :=
  N.lor (N.shiftr x n) (N.shiftl x (32 - n) mod word_mod).
Definition not32 (x : N) : N := N.lxor x (word_mod - 1).

Definition Ch (x y z : N) := N.lxor (N.land x y) (N.land (not32 x) z).
Definition Maj (x y z : N) :=
  N.lxor (N.lxor (N.land x y) (N.land x z)) (N.land y z).
Definition Sigma0 x := N.lxor (N.lxor (rotr 2 x) (rotr 13 x)) (rotr 22 x).
Definition Sigma1 x := N.lxor (N.lxor (rotr 6 x) (rotr 11 x)) (rotr 25 x).
Definition sigma0 x := N.lxor (N.lxor (rotr 7 x) (rotr 18 x)) (N.shiftr x 3).
Definition sigma1 x := N.lxor (N.lxor (rotr 17 x) (rotr 19 x)) (N.shiftr x 10).

(** The round constants and the initial chaining value are the first 32
    bits of the fractional parts of the cube roots, respectively the square
    roots, of the first primes. *)
Definition is_prime (n : nat) : bool :=
  forallb (fun d => negb (Nat.eqb (Nat.modulo n d) 0)) (seq 2 (n - 2)).

Definition primes_below (bound : nat) : list N :=
  map N.of_nat (List.filter is_prime (seq 2 (bound - 2))).

(** The largest [r] below [2 ^ bits] with [r ^ 3 <= x]. *)
Fixpoint cube_root (bits : nat) (x r : N) : N :=
  match bits with
  | O => r
  | S bits' =>
      let candidate := r + 2 ^ N.of_nat bits' in
      cube_root bits' x (if candidate ^ 3 <=? x then candidate else r)
  end.

Definition fractional_cube_root (p : N) : N :=
  cube_root 40 (p * 2 ^ 96) 0 mod word_mod.

Definition fractional_square_root (p : N) : N :=
  N.sqrt (p * 2 ^ 64) mod word_mod.

Definition K : list N :=
  Eval vm_compute in map fractional_cube_root (primes_below 312).

(** The eight working variables a..h, also the chaining value. *)
Record state : Type := State {
  sa : N; sb : N; sc : N; sd : N; se : N; sf : N; sg : N; sh : N }.

Definition H0 : state :=
  Eval vm_compute in
    match map fractional_square_root (primes_below 20) with
    | [a; b; c; d; e; f; g; h] => State a b c d e f g h
    | _ => State 0 0 0 0 0 0 0 0
    end.

(** Padding: a 1 bit, zero bits up to 56 mod 64 bytes, then the message
    length in bits as a 64-bit big-endian integer. *)
Definition be_bytes (count : nat) (x : N) : list N :=
  map (fun i => (N.shiftr x (8 * N.of_nat i)) mod 256) (rev (seq 0 count)).

Definition pad (msg : list N) : list N :=
  let len := N.of_nat (length msg) in
  let zeros := N.to_nat ((119 - len mod 64) mod 64) in
  msg ++ [0x80] ++ repeat 0 zeros ++ be_bytes 8 (8 * len).

Definition be_word (bs : list N) : N :=
  fold_left (fun acc b => acc * 256 + b) bs 0.

Fixpoint chunks {A} (fuel size : nat) (l : list A) : list (list A) :=
  match fuel with
  | O => []
  | S fuel' =>
      match l with
      | [] => []
      | _ => firstn size l :: chunks fuel' size (skipn size l)
      end
  end.

(** The 64-entry message schedule of one 16-word block. *)
Fixpoint extend (count : nat) (w : list N) : list N :=
  match count with
  | O => w
  | S count' =>
      let t := length w in
      let at_ (back : nat) := nth (t - back) w 0 in
      extend count'
        (w ++ [add32 (add32 (sigma1 (at_ 2%nat)) (at_ 7%nat))
                     (add32 (sigma0 (at_ 15%nat)) (at_ 16%nat))])
  end.

Definition schedule (block : list N) : list N :=
  extend 48 (map be_word (chunks 16 4 block)).

Definition round (s : state) (kw : N * N) : state :=
  let t1 := add32 (add32 (add32 (sh s) (Sigma1 (se s)))
                         (add32 (Ch (se s) (sf s) (sg s)) (fst kw))) (snd kw) in
  let t2 := add32 (Sigma0 (sa s)) (Maj (sa s) (sb s) (sc s)) in
  State (add32 t1 t2) (sa s) (sb s) (sc s) (add32 (sd s) t1) (se s) (sf s) (sg s).

Definition compress (h : state) (block : list N) : state :=
  let s := fold_left round (combine K (schedule block)) h in
  State (add32 (sa h) (sa s)) (add32 (sb h) (sb s)) (add32 (sc h) (sc s))
        (add32 (sd h) (sd s)) (add32 (se h) (se s)) (add32 (sf h) (sf s))
        (add32 (sg h) (sg s)) (add32 (sh h) (sh s)).

Definition state_bytes (s : state) : list N :=
  be_bytes 4 (sa s) ++ be_bytes 4 (sb s) ++ be_bytes 4 (sc s) ++
  be_bytes 4 (sd s) ++ be_bytes 4 (se s) ++ be_bytes 4 (sf s) ++
  be_bytes 4 (sg s) ++ be_bytes 4 (sh s).

(** [hashlib.sha256(msg).digest()] on a list of byte values. *)
Definition digest_bytes (msg : list N) : list N :=
  let padded := pad msg in
  state_bytes (fold_left compress (chunks (length padded) 64 padded) H0).

Definition bytes_of_string (s : string) : list N :=
  map N_of_ascii (list_ascii_of_string s).
Definition string_of_bytes (bs : list N) : string :=
  string_of_list_ascii (map ascii_of_N bs).

Definition digest (msg : string) : string :=
  string_of_bytes (digest_bytes (bytes_of_string msg)).

End Sha256.

(** ** base64.urlsafe_b64encode (RFC 4648), on byte strings *)

Module Base64.

  Local Open Scope N_scope.

Definition alphabet : string :=
  "ABCDEFGHIJKLMNOPQRSTUVWXYZabcdefghijklmnopqrstuvwxyz0123456789+/".

Definition char_of_sextet (n : N) : ascii :=
  match String.get (N.to_nat n) alphabet with
  | Some c => c
  | None => "="%char
  end.

Fixpoint encode_bytes (l : list N) : string :=
  match l with
  | [] => ""
  | [a] =>
      String (char_of_sextet (a / 4))
        (String (char_of_sextet ((a mod 4) * 16)) "==")
  | [a; b] =>
      String (char_of_sextet (a / 4))
        (String (char_of_sextet ((a mod 4) * 16 + b / 16))
           (String (char_of_sextet ((b mod 16) * 4)) "="))
  | a :: b :: c :: rest =>
      String (char_of_sextet (a / 4))
        (String (char_of_sextet ((a mod 4) * 16 + b / 16))
           (String (char_of_sextet ((b mod 16) * 4 + c / 64))
              (String (char_of_sextet (c mod 64)) (encode_bytes rest))))
  end.

Definition b64encode (s : string) : string :=
  encode_bytes (Sha256.bytes_of_string s).

(** [bytes.translate] with the table that maps '+' to '-' and '/' to '_'. *)
Definition urlsafe_char (c : ascii) : ascii :=
  if Ascii.eqb c "+" then "-"%char
  else if Ascii.eqb c "/" then "_"%char
  else c.

Fixpoint translate (f : ascii -> ascii) (s : string) : string :=
  match s with
  | EmptyString => EmptyString
  | String c rest => String (f c) (translate f rest)
  end.

Definition urlsafe_b64encode (s : string) : string :=
  translate urlsafe_char (b64encode s).

(** [base64.urlsafe_b64decode] on well-formed padded input, the decoding
    that the Fernet constructor applies to its key. *)
Definition sextet_of_urlsafe_char (c : ascii) : N :=
  let n := N_of_ascii c in
  if (65 <=? n) && (n <=? 90) then n - 65
  else if (97 <=? n) && (n <=? 122) then n - 71
  else if (48 <=? n) && (n <=? 57) then n + 4
  else if n =? 45 then 62
  else if n =? 95 then 63
  else 64.

Fixpoint urlsafe_decode_bytes (s : string) : list N :=
  match s with
  | String c1 (String c2 (String c3 (String c4 rest))) =>
      let n1 := sextet_of_urlsafe_char c1 in
      let n2 := sextet_of_urlsafe_char c2 in
      let n3 := sextet_of_urlsafe_char c3 in
      let n4 := sextet_of_urlsafe_char c4 in
      let b1 := n1 * 4 + n2 / 16 in
      if Ascii.eqb c3 "=" then [b1]
      else
        let b2 := (n2 mod 16) * 16 + n3 / 4 in
        if Ascii.eqb c4 "=" then [b1; b2]
        else b1 :: b2 :: (n3 mod 4) * 64 + n4 :: urlsafe_decode_bytes rest
  | _ => []
  end.

End Base64.

(** ** app/config.py *)

Module Config.

(** [str.encode()]: a [str] is represented by its UTF-8 bytes. *)
Definition encode (s : string) : string := s.

Definition derive_fernet_key (input_string : string) : string :=
  (* 1. Hash the string to get exactly 32 bytes *)
  let digest := Sha256.digest (encode input_string) in
  (* 2. Base64 encode it for Fernet compatibility *)
  Base64.urlsafe_b64encode digest.

Definition ALLOWED_ORIGINS : list string := ["127.0.0.1"; "localhost"].

End Config.

(** ** The library functions the middleware and the role check call

    [bytes.decode], [str.lower] and [urllib.parse.urlparse] belong to the
    Python runtime, not to the repository; the embedding takes them as an
    interface.  [PortableRuntime] below implements it for ASCII text. *)

Module Urllib.

(** The two attributes of [ParseResult] that the middleware reads. *)
Record ParseResult : Type := {
  scheme : string;
  hostname : option string }.

End Urllib.

Class Runtime : Type := {
  str_lower : string -> string;                       (* str.lower() *)
  bytes_decode : string -> Py.result string;          (* bytes.decode() *)
  urlparse : string -> Py.result Urllib.ParseResult   (* urllib.parse.urlparse *)
}.

Module Ascii7.

Definition code (c : ascii) : nat := nat_of_ascii c.

Definition is_upper (c : ascii) : bool := (65 <=? code c)%nat && (code c <=? 90)%nat.
Definition is_lower (c : ascii) : bool := (97 <=? code c)%nat && (code c <=? 122)%nat.
Definition is_digit (c : ascii) : bool := (48 <=? code c)%nat && (code c <=? 57)%nat.
Definition is_alpha (c : ascii) : bool := is_upper c || is_lower c.

Definition lower_char (c : ascii) : ascii :=
  if is_upper c then ascii_of_nat (code c + 32) else c.

Definition lower (s : string) : string := Base64.translate lower_char s.

Fixpoint forall_chars (p : ascii -> bool) (s : string) : bool :=
  match s with
  | EmptyString => true
  | String c rest => p c && forall_chars p rest
  end.

Fixpoint lstrip (p : ascii -> bool) (s : string) : string :=
  match s with
  | EmptyString => EmptyString
  | String c rest => if p c then lstrip p rest else s
  end.

Fixpoint remove (p : ascii -> bool) (s : string) : string :=
  match s with
  | EmptyString => EmptyString
  | String c rest => if p c then remove p rest else String c (remove p rest)
  end.

(** [s.partition(sep)] for the separators in [p]: the text before the
    first separator and, when there is one, the text after it. *)
Fixpoint partition (p : ascii -> bool) (s : string) : string * option string :=
  match s with
  | EmptyString => (EmptyString, None)
  | String c rest =>
      if p c then (EmptyString, Some rest)
      else let '(before, after) := partition p rest in (String c before, after)
  end.

Fixpoint exists_char (p : ascii -> bool) (s : string) : bool :=
  match s with
  | EmptyString => false
  | String c rest => p c || exists_char p rest
  end.

(** The third component of [s.rpartition(sep)]: the text after the last
    separator, the whole text when there is none. *)
Fixpoint after_last (p : ascii -> bool) (s : string) : string :=
  match s with
  | EmptyString => EmptyString
  | String c rest =>
      if exists_char p rest then after_last p rest
      else if p c then rest
      else s
  end.

Definition is_char (c : ascii) : ascii -> bool := Ascii.eqb c.

End Ascii7.

(** An implementation of [Runtime] for ASCII text.  It follows CPython's
    [urllib.parse.urlsplit] and the [hostname] property for the scheme and
    the network location; the checks CPython runs on non-ASCII network
    locations and on bracketed IPv6 literals are not part of it. *)

Module PortableRuntime.

Import Ascii7.

(** UTF-8 well-formedness (Unicode, table 3-7), the condition under which
    [bytes.decode()] returns. *)
Definition between (lo hi : nat) (c : ascii) : bool :=
  (lo <=? code c)%nat && (code c <=? hi)%nat.

Fixpoint valid_utf8 (fuel : nat) (s : string) : bool :=
  match fuel with
  | O => match s with EmptyString => true | _ => false end
  | S fuel' =>
      match s with
      | EmptyString => true
      | String a rest =>
          if between 0 127 a then valid_utf8 fuel' rest
          else match rest with
          | EmptyString => false
          | String b rest2 =>
              if between 194 223 a then between 128 191 b && valid_utf8 fuel' rest2
              else match rest2 with
              | EmptyString => false
              | String c rest3 =>
                  if between 224 239 a then
                    (if between 224 224 a then between 160 191 b
                     else if between 237 237 a then between 128 159 b
                     else between 128 191 b)
                    && between 128 191 c && valid_utf8 fuel' rest3
                  else match rest3 with
                  | EmptyString => false
                  | String d rest4 =>
                      between 240 244 a
                      && (if between 240 240 a then between 144 191 b
                          else if between 244 244 a then between 128 143 b
                          else between 128 191 b)
                      && between 128 191 c && between 128 191 d
                      && valid_utf8 fuel' rest4
                  end
              end
          end
      end
  end.

Definition decode (b : string) : Py.result string :=
  if valid_utf8 (String.length b) b then Py.Return b
  else Py.Raise Py.UnicodeDecodeError.

Definition scheme_char (c : ascii) : bool :=
  is_alpha c || is_digit c || is_char "+" c || is_char "-" c || is_char "." c.

Definition starts_with_slashes (s : string) : bool :=
  match s with
  | String "/" (String "/" _) => true
  | _ => false
  end.

(** The scheme and the remainder of the URL. *)
Definition split_scheme (url : string) : string * string :=
  match partition (is_char ":") url with
  | (before, Some after) =>
      match before with
      | String c _ =>
          if is_alpha c && forall_chars scheme_char before
          then (lower before, after)
          else (EmptyString, url)
      | EmptyString => (EmptyString, url)
      end
  | (_, None) => (EmptyString, url)
  end.

Definition split_netloc (url : string) : string :=
  if starts_with_slashes url then
    fst (partition (fun c => is_char "/" c || is_char "?" c || is_char "#" c)
           (String.substring 2 (String.length url - 2) url))
  else EmptyString.

(** The [hostname] property of a split result. *)
Definition hostname_of_netloc (netloc : string) : option string :=
  let hostinfo := after_last (is_char "@") netloc in
  let host :=
    match partition (is_char "[") hostinfo with
    | (_, Some bracketed) => fst (partition (is_char "]") bracketed)
    | (_, None) => fst (partition (is_char ":") hostinfo)
    end in
  match host with
  | EmptyString => None
  | _ =>
      match partition (is_char "%") host with
      | (name, Some zone) => Some (lower name ++ "%" ++ zone)
      | (name, None) => Some (lower name)
      end
  end.

Definition parse (url : string) : Py.result Urllib.ParseResult :=
  let url := lstrip (between 0 32) url in
  let url := remove (fun c => is_char "009" c || is_char "010" c || is_char "013" c) url in
  let '(scheme, rest) := split_scheme url in
  let netloc := split_netloc rest in
  if xorb (exists_char (is_char "[") netloc) (exists_char (is_char "]") netloc)
  then Py.Raise (Py.ValueError "Invalid IPv6 URL")
  else Py.Return {| Urllib.scheme := scheme;
                    Urllib.hostname := hostname_of_netloc netloc |}.

#[export] Instance runtime : Runtime := {
  str_lower := lower;
  bytes_decode := decode;
  urlparse := parse }.

End PortableRuntime.

(** ** ASGI applications

    An application handles one connection scope.  A run is the sequence of
    observable events it produced together with either normal completion
    or the exception that escaped. *)

Module Asgi.

Record Scope : Type := {
  type : string;                         (* scope["type"] *)
  method : string;                       (* scope["method"] *)
  headers : list (string * string) }.    (* scope["headers"], names lower-cased *)

Inductive event : Type :=
| Entered (layer : string)        (* a layer's __call__ was invoked *)
| ResponseStart (status : Z).     (* an http.response.start message was sent *)

Definition Run : Type := list event * Py.result unit.
Definition App : Type := Scope -> Run.

Definition emit (es : list event) (k : Run) : Run := ((es ++ fst k)%list, snd k).
Definition respond (status : Z) : Run := ([ResponseStart status], Py.Return tt).

Definition is_response_start (e : event) : bool :=
  match e with ResponseStart _ => true | Entered _ => false end.
Definition response_started (es : list event) : bool :=
  existsb is_response_start es.

(** The statuses sent to the client during a run. *)
Definition statuses (r : Run) : list Z :=
  omap (fun e => match e with ResponseStart s => Some s | Entered _ => None end) (fst r).

(** The layers entered during a run, in order. *)
Definition layers (r : Run) : list string :=
  omap (fun e => match e with Entered l => Some l | ResponseStart _ => None end) (fst r).

End Asgi.

(** ** app/security/middleware.py *)

Module HostOriginValidationMiddleware.

Import Asgi.

Record t : Type := {
  app : App;
  allowed_hosts : gset string }.

(** [dict(pairs)]: a later pair overrides an earlier one with the same key. *)
Definition dict (pairs : list (string * string)) : gmap string string :=
  foldl (fun m kv => <[fst kv := snd kv]> m) ∅ pairs.

Definition forbidden : Py.exn :=
  Py.HttpClientHTTPException [Py.VInt 403; Py.VStr "Invalid Origin"].

Section WithRuntime.
Context `{Runtime}.

Definition __init__ (app : App) (allowed_hosts : list string) : t :=
  {| app := app;
     allowed_hosts := list_to_set (map str_lower allowed_hosts) |}.

(** The [if scope["type"] == "http":] block of [__call__]. *)
Definition validate (self : t) (scope : Scope) : Py.result unit :=
  if String.eqb (type scope) "http" then
    let headers := dict (headers scope) in
    match headers !! "origin" with
    | Some (String _ _ as origin) =>
        origin ← bytes_decode origin;
        let origin := str_lower origin in
        parsed ← urlparse origin;
        (* Optional: enforce scheme *)
        if negb (bool_decide (Urllib.scheme parsed ∈ ["http"; "https"])) then
          Py.Raise forbidden
        (* DNS rebinding protection *)
        else if negb (match Urllib.hostname parsed with
                      | Some h => bool_decide (h ∈ allowed_hosts self)
                      | None => false
                      end) then
          Py.Raise forbidden
        else Py.Return tt
    | _ => Py.Return tt
    end
  else Py.Return tt.

Definition __call__ (self : t) (scope : Scope) : Run :=
  match validate self scope with
  | Py.Return _ => app self scope
  | Py.Raise e => ([], Py.Raise e)
  end.

End WithRuntime.

End HostOriginValidationMiddleware.

(** ** Starlette: the parts of the framework that [main.py] drives

    [Starlette.add_middleware] inserts at the front of [user_middleware];
    [build_middleware_stack] wraps the router with the middleware list from
    its last element to its first, inside [ServerErrorMiddleware]. *)

Module Starlette.

Import Asgi.

Record Middleware : Type := {
  cls : string;
  build : App -> App }.

Record t : Type := {
  user_middleware : list Middleware;
  router : App }.

Definition add_middleware (self : t) (m : Middleware) : t :=
  {| user_middleware := m :: user_middleware self; router := router self |}.

(** An exception that escapes the application becomes a 500 response,
    unless a response has already started; the exception is re-raised. *)
Definition ServerErrorMiddleware : Middleware :=
  {| cls := "ServerErrorMiddleware";
     build := fun app scope =>
       if String.eqb (type scope) "http" then
         match app scope with
         | (es, Py.Raise e) =>
             (if response_started es then es else (es ++ [ResponseStart 500])%list,
              Py.Raise e)
         | r => r
         end
       else app scope |}.

(** Handles [starlette.exceptions.HTTPException] and registered handlers;
    none of the exceptions of this model is one, so they pass through. *)
Definition ExceptionMiddleware : Middleware :=
  {| cls := "ExceptionMiddleware"; build := fun app => app |}.

Definition build_middleware_stack (self : t) : App :=
  let middleware :=
    ([ServerErrorMiddleware] ++ user_middleware self ++ [ExceptionMiddleware])%list in
  foldr (fun m app => build m app) (router self) middleware.

(** Instrumentation: a traced layer records that it was entered. *)
Definition traced (m : Middleware) : Middleware :=
  {| cls := cls m;
     build := fun app scope => emit [Entered (cls m)] (build m app scope) |}.

Definition instrument (self : t) : t :=
  {| user_middleware := map traced (user_middleware self);
     router := fun scope => emit [Entered "router"] (router self scope) |}.

Definition run (self : t) : App := build_middleware_stack (instrument self).

(** [starlette.middleware.cors.CORSMiddleware.__call__], with the
    configuration options that [main.py] does not leave at their default
    reduced to the allowed origins. *)
Module CORSMiddleware.

Definition ALL_METHODS : list string :=
  ["DELETE"; "GET"; "HEAD"; "OPTIONS"; "PATCH"; "POST"; "PUT"].

(** [Headers.get]: the first header with that name. *)
Fixpoint get (name : string) (hs : list (string * string)) : option string :=
  match hs with
  | [] => None
  | (k, v) :: rest => if String.eqb k name then Some v else get name rest
  end.

Definition is_allowed_origin (allow_origins : list string) (origin : string) : bool :=
  bool_decide ("*" ∈ allow_origins) || bool_decide (origin ∈ allow_origins).

Definition preflight_response (allow_origins : list string)
    (origin requested_method : string) : Run :=
  if is_allowed_origin allow_origins origin
     && bool_decide (requested_method ∈ ALL_METHODS)
  then respond 200
  else respond 400.

Definition __call__ (allow_origins : list string) (app : App) : App :=
  fun scope =>
    if negb (String.eqb (type scope) "http") then app scope
    else
      match get "origin" (headers scope) with
      | None => app scope
      | Some origin =>
          match get "access-control-request-method" (headers scope) with
          | Some requested_method =>
              if String.eqb (method scope) "OPTIONS"
              then preflight_response allow_origins origin requested_method
              else app scope   (* simple_response: the inner app runs *)
          | None => app scope  (* simple_response: the inner app runs *)
          end
      end.

End CORSMiddleware.

End Starlette.

(** ** main.py *)

Module Main.

Import Asgi.

Section WithRuntime.
Context `{Runtime}.

Definition configure_middleware (app : Starlette.t) : Starlette.t :=
  (* Custom Origin validation FIRST (before CORS) *)
  let app := Starlette.add_middleware app
    {| Starlette.cls := "HostOriginValidationMiddleware";
       Starlette.build := fun inner =>
         HostOriginValidationMiddleware.__call__
           (HostOriginValidationMiddleware.__init__ inner Config.ALLOWED_ORIGINS) |} in
  (* Then CORS for legitimate requests *)
  Starlette.add_middleware app
    {| Starlette.cls := "CORSMiddleware";
       Starlette.build := Starlette.CORSMiddleware.__call__ Config.ALLOWED_ORIGINS |}.

End WithRuntime.

End Main.

(** ** app/security/auth.py *)

Module Auth.

(** [AccessToken.claims] is the decoded token payload: a dictionary of
    arbitrary JSON values. *)
Record AccessToken : Type := { claims : gmap string Py.value }.
Record AuthContext : Type := { token : AccessToken }.

Section WithRuntime.
Context `{Runtime}.

(** [x.lower()] on an arbitrary value. *)
Definition lower (x : Py.value) : Py.result string :=
  match x with
  | Py.VStr s => Py.Return (str_lower s)
  | _ => Py.Raise (Py.AttributeError "object has no attribute 'lower'")
  end.

Definition has_role (role : string) : AuthContext -> Py.result bool :=
  fun ctx =>
    let token := token ctx in
    let realm_access :=
      match claims token !! "realm_access" with
      | Some v => v
      | None => Py.VDict ∅
      end in
    roles_claim ← Py.get realm_access "roles" (Py.VList []);
    items ← Py.iter roles_claim;
    roles ← mapM lower items;
    Py.Return (bool_decide (str_lower role ∈ roles)).

End WithRuntime.

End Auth.

(** ** str.strip

    [str.strip()] removes the white space at both ends: the characters for
    which [str.isspace] holds.  On the UTF-8 representation these are the
    bytes 09-0D, 1C-1F and 20 and the encodings of U+0085, U+00A0, U+1680,
    U+2000-U+200A, U+2028, U+2029, U+202F, U+205F and U+3000. *)

Module Text.

Definition byte_in (lo hi : nat) (c : ascii) : bool :=
  (lo <=? nat_of_ascii c)%nat && (nat_of_ascii c <=? hi)%nat.

Definition space1 (a : ascii) : bool :=
  byte_in 9 13 a || byte_in 28 32 a.

Definition space2 (a b : ascii) : bool :=
  byte_in 194 194 a && (byte_in 133 133 b || byte_in 160 160 b).

Definition space3 (a b c : ascii) : bool :=
  (byte_in 225 225 a && byte_in 154 154 b && byte_in 128 128 c)
  || (byte_in 226 226 a && byte_in 128 128 b
      && (byte_in 128 138 c || byte_in 168 169 c || byte_in 175 175 c))
  || (byte_in 226 226 a && byte_in 129 129 b && byte_in 159 159 c)
  || (byte_in 227 227 a && byte_in 128 128 b && byte_in 128 128 c).

Fixpoint lstrip (s : string) : string :=
  match s with
  | EmptyString => EmptyString
  | String a rest =>
      if space1 a then lstrip rest
      else match rest with
           | EmptyString => s
           | String b rest2 =>
               if space2 a b then lstrip rest2
               else match rest2 with
                    | EmptyString => s
                    | String c rest3 => if space3 a b c then lstrip rest3 else s
                    end
           end
  end.

(** The text consists of white space only. *)
Definition blank (s : string) : bool := String.eqb (lstrip s) "".

Fixpoint rstrip (s : string) : string :=
  match s with
  | EmptyString => EmptyString
  | String a rest => if blank s then EmptyString else String a (rstrip rest)
  end.

Definition strip (s : string) : string := rstrip (lstrip s).

Definition carriage_return : ascii := "013"%char.
Definition line_feed : ascii := "010"%char.

(** What a file opened in text mode without [newline=] yields for the
    characters on disk: a carriage return followed by a line feed is read
    as one line feed, and any other carriage return as a line feed. *)
Fixpoint universal_newlines (s : string) : string :=
  match s with
  | EmptyString => EmptyString
  | String c rest =>
      if Ascii.eqb c carriage_return then
        match rest with
        | String d _ =>
            if Ascii.eqb d line_feed then universal_newlines rest
            else String line_feed (universal_newlines rest)
        | EmptyString => String line_feed EmptyString
        end
      else String c (universal_newlines rest)
  end.

End Text.

(** ** app/services/note_service.py

    The notes file at [Config.FILE_PATH] is the only file the service
    touches.  The world records its content ([None] while it does not
    exist) and a journal of the observable actions, oldest first.  The
    content is the text as Python's text layer presents it, every line
    break being the single character LF.  The file on disk does not end in
    a carriage return that waits for its line feed: no file the service
    has written does, since [store_note] ends what it writes with a line
    feed and the two deletions write back text that was read. *)

Module World.

(** What [ctx.elicit(..., response_type=bool)] returns: an instance of one
    of three classes.  The library validates the answer of the front-end
    against the response type, so the payload of an acceptance is a
    [bool]. *)
Inductive ElicitationResult : Type :=
| AcceptedElicitation (data : bool)
| DeclinedElicitation
| CancelledElicitation.

(** A call of [ctx.elicit] returns such a result, or raises when the
    answer of the front-end does not validate. *)
Inductive event : Type :=
| Elicited (message : string) (answer : Py.result ElicitationResult)
| Wrote (content : string).   (* the notes file was opened for writing and closed *)

Record t : Type := {
  notes : option string;
  journal : list event }.

Definition IO (A : Type) : Type := t -> t * Py.result A.

Definition ret {A} (a : A) : IO A := fun w => (w, Py.Return a).
Definition bind {A B} (m : IO A) (k : A -> IO B) : IO B :=
  fun w => match m w with
           | (w', Py.Return a) => k a w'
           | (w', Py.Raise e) => (w', Py.Raise e)
           end.

(** [try: body except Exception as e: handler(e)] *)
Definition try_except {A} (body : IO A) (handler : Py.exn -> IO A) : IO A :=
  fun w => match body w with
           | (w', Py.Raise e) => handler e w'
           | r => r
           end.

(** [os.path.exists(Config.FILE_PATH)] *)
Definition exists_ : IO bool := fun w => (w, Py.Return (bool_decide (is_Some (notes w)))).

(** [with open(Config.FILE_PATH, "r") as f: f.read()] *)
Definition read : IO string :=
  fun w => match notes w with
           | Some content => (w, Py.Return content)
           | None => (w, Py.Raise Py.FileNotFoundError)
           end.

(** [with open(Config.FILE_PATH, "w") as f: f.write(content)] *)
Definition write (content : string) : IO unit :=
  fun w => ({| notes := Some content;
               journal := (journal w ++ [Wrote content])%list |}, Py.Return tt).

(** [with open(Config.FILE_PATH, "a") as f: f.write(text)]: the text goes
    to the end of the file, which is created when it does not exist.  The
    characters are written as they are, carriage returns included; what
    the file presents afterwards is their reading under universal
    newlines. *)
Definition append (text : string) : IO unit :=
  fun w =>
    let content :=
      match notes w with Some old => old | None => "" end
      ++ Text.universal_newlines text in
    ({| notes := Some content;
        journal := (journal w ++ [Wrote content])%list |}, Py.Return tt).

(** The writes recorded in a journal. *)
Definition writes (j : list event) : list string :=
  omap (fun e => match e with Wrote c => Some c | Elicited _ _ => None end) j.

End World.

#[global] Instance io_ret : MRet World.IO := @World.ret.
#[global] Instance io_bind : MBind World.IO := fun A B k m => World.bind m k.

Module NoteService.

Import World.

Definition newline : ascii := "010"%char.

(** [f.readlines()]: the lines of the text, each with its terminator. *)
Fixpoint readlines (s : string) : list string :=
  match s with
  | EmptyString => []
  | String c rest =>
      if Ascii.eqb c newline then String c EmptyString :: readlines rest
      else match readlines rest with
           | [] => [String c EmptyString]
           | line :: lines => String c line :: lines
           end
  end.

(** [f.writelines(lines)] writes the concatenation. *)
Definition joined (lines : list string) : string := String.concat "" lines.

(** [needle in haystack] on strings. *)
Fixpoint contains (needle haystack : string) : bool :=
  String.prefix needle haystack ||
  match haystack with
  | EmptyString => false
  | String _ rest => contains needle rest
  end.

(** [str(e)] *)
Definition str (e : Py.exn) : string :=
  match e with
  | Py.FileNotFoundError => "[Errno 2] No such file or directory"
  | Py.ValueError msg | Py.AttributeError msg | Py.TypeError msg => msg
  | Py.UnicodeDecodeError => "invalid start byte"
  | Py.HttpClientHTTPException _ => "HTTPException"
  end.

Definition response : Type := gmap string Py.value.

Definition failed (e : Py.exn) : IO response :=
  mret (<["status" := Py.VStr "error"]>
          (<["message" := Py.VStr ("Failed to delete notes: " ++ str e)]> ∅)).

Definition delete_all_notes : IO response :=
  try_except
    (present ← exists_;
     _ ← (if present : bool then write "" else mret tt);
     mret (<["status" := Py.VStr "success"]>
             (<["message" := Py.VStr "All notes have been deleted."]> ∅)))
    failed.

Definition delete_notes_containing (contained_text : string) : IO response :=
  try_except
    (present ← exists_;
     if negb present then
       mret (<["status" := Py.VStr "success"]>
               (<["message" := Py.VStr "No notes file found. Nothing to delete."]> ∅))
     else
       content ← read;
       let lines := readlines content in
       (* Keep only lines that DO NOT contain the text *)
       let remaining_lines :=
         List.filter (fun line => negb (contains contained_text line)) lines in
       let deleted_count :=
         (Z.of_nat (length lines) - Z.of_nat (length remaining_lines))%Z in
       _ ← write (joined remaining_lines);
       mret (<["status" := Py.VStr "success"]>
               (<["deleted" := Py.VInt deleted_count]>
                  (<["message" := Py.VStr ("Deleted " ++ pretty deleted_count
                                            ++ " note(s) containing '"
                                            ++ contained_text ++ "'.")]> ∅))))
    failed.

Definition dq : string := String (ascii_of_nat 34) EmptyString.
Definition nl : string := String newline EmptyString.

Definition store_note (note : string) : IO (bool * string) :=
  try_except
    ((* os.makedirs(..., exist_ok=True): the world records no directories *)
     _ ← append (note ++ nl);
     mret (true, "Note stored successfully."))
    (fun e => mret (false, "Error storing note: " ++ str e)).

Definition get_all_notes : IO string :=
  try_except
    (present ← exists_;
     if negb present then
       mret "No notes found. The notes file doesn't exist yet."
     else
       content ← read;
       if String.eqb (Text.strip content) "" then
         mret "No notes found. The notes file is empty."
       else mret ("All Stored Notes:" ++ nl ++ nl ++ content))
    (fun e => mret ("Error retrieving notes: " ++ str e)).

(** What a call that may raise [Exception(message)] comes to. *)
Inductive raised_or (A : Type) : Type :=
| Returned (a : A)
| RaisedException (message : string).
Arguments Returned {A} a.
Arguments RaisedException {A} message.

Definition read_notes_content (w : World.t) : World.t * raised_or string :=
  let guarded : IO (option string) :=
    present ← exists_;
    if present : bool then content ← read; mret (Some content) else mret None in
  match guarded w with
  | (w', Py.Return (Some content)) => (w', Returned content)
  | (w', Py.Return None) => (w', Returned "")
  | (w', Py.Raise e) => (w', RaisedException ("Error retrieving notes: " ++ str e))
  end.

Definition get_classification_prompt : string :=
  "Considering the notes present in the resource, classify them in specific classes:" ++
  nl ++ nl ++ "            1. URGENT - contains " ++ dq ++ "urgent" ++ dq ++ ", " ++
  dq ++ "asap" ++ dq ++ ", " ++ dq ++ "critical" ++ dq ++ ", " ++ dq ++
  "emergency" ++ dq ++ nl ++ "            2. WITH DEADLINES - mentions dates or " ++
  dq ++ "today" ++ dq ++ ", " ++ dq ++ "tomorrow" ++ dq ++ ", " ++ dq ++ "week" ++
  dq ++ ", " ++ dq ++ "month" ++ dq ++ nl ++ "            3. MEETING - contains " ++
  dq ++ "meeting" ++ dq ++ ", " ++ dq ++ "call" ++ dq ++ ", " ++ dq ++ "review" ++
  dq ++ ", " ++ dq ++ "report" ++ dq ++ nl ++
  "            4. PERSONAL - personal tasks and reminders" ++ nl ++
  "            5. OTHER - everything else" ++ nl ++ nl ++
  "            Show each priority level as a section with bullet points." ++ nl ++
  "            ".

Definition build_classification_message (notes_content : string) : string :=
  "Considering the notes present in the resource, classify them in specific classes:" ++
  nl ++ nl ++ "            1. URGENT - contains " ++ dq ++ "urgent" ++ dq ++ ", " ++
  dq ++ "asap" ++ dq ++ ", " ++ dq ++ "critical" ++ dq ++ ", " ++ dq ++
  "emergency" ++ dq ++ nl ++ "            2. WITH DEADLINES - mentions dates or " ++
  dq ++ "today" ++ dq ++ ", " ++ dq ++ "tomorrow" ++ dq ++ ", " ++ dq ++ "week" ++
  dq ++ ", " ++ dq ++ "month" ++ dq ++ nl ++ "            3. MEETING - contains " ++
  dq ++ "meeting" ++ dq ++ ", " ++ dq ++ "call" ++ dq ++ ", " ++ dq ++ "review" ++
  dq ++ ", " ++ dq ++ "report" ++ dq ++ nl ++
  "            4. PERSONAL - personal tasks and reminders" ++ nl ++
  "            5. OTHER - everything else" ++ nl ++ nl ++
  "            Show each priority level as a section with bullet points." ++ nl ++
  "            ------------" ++ nl ++ "            DATA TO PROCESS:" ++ nl
  ++ notes_content ++
  nl ++ "        ".

End NoteService.

(** ** app/mcp_endpoints/routes.py *)

Module Routes.

Import World.

(** The [action] attribute of the three result classes. *)
Definition action (r : ElicitationResult) : string :=
  match r with
  | AcceptedElicitation _ => "accept"
  | DeclinedElicitation => "decline"
  | CancelledElicitation => "cancel"
  end.

(** The [data] attribute, present on an accepted result. *)
Definition data (r : ElicitationResult) : Py.value :=
  match r with
  | AcceptedElicitation d => Py.VBool d
  | _ => Py.VNone
  end.

(** The MCP context of a tool call: what [ctx.elicit] comes to for a
    confirmation prompt, once the library has validated the answer of
    the interactive front-end. *)
Record Context : Type := { front_end : string -> Py.result ElicitationResult }.

(** [await ctx.elicit(message, response_type=bool)] *)
Definition elicit (ctx : Context) (message : string) : IO ElicitationResult :=
  fun w =>
    let answer := front_end ctx message in
    ({| notes := notes w;
        journal := (journal w ++ [Elicited message answer])%list |},
     answer).

Definition cancelled (message : string) : NoteService.response :=
  <["status" := Py.VStr "cancelled"]> (<["message" := Py.VStr message]> ∅).

Definition delete_all_notes (ctx : Context) : IO NoteService.response :=
  result ← elicit ctx "Are you sure you want to delete ALL notes?";
  let first_if : option (IO NoteService.response) :=
    if String.eqb (action result) "accept" then
      let confirmed := data result in
      if Py.is_True confirmed then Some NoteService.delete_all_notes
      else if Py.is_False confirmed then
        Some (mret (cancelled "Deletion not confirmed by user."))
      else None
    else None in
  match first_if with
  | Some returned => returned
  | None =>
      if String.eqb (action result) "decline" then
        mret (cancelled "Deletion declined by user.")
      else if String.eqb (action result) "cancel" then
        mret (cancelled "Deletion cancelled by user.")
      else
        mret (<["status" := Py.VStr "error"]>
                (<["message" := Py.VStr "Invalid confirmation response."]> ∅))
  end.

Definition delete_note (contained_text : string) (ctx : Context)
  : IO NoteService.response :=
  (* Ask for confirmation *)
  result ← elicit ctx ("Are you sure you want to delete all notes containing: '"
                       ++ contained_text ++ "'?");
  match result with
  | AcceptedElicitation _ =>
      let confirmed := data result in
      if Py.is_True confirmed then
        NoteService.delete_notes_containing contained_text
      else mret (cancelled "Deletion declined by user.")
  | DeclinedElicitation => mret (cancelled "Deletion declined by user.")
  | CancelledElicitation => mret (cancelled "Deletion cancelled by user.")
  end.

Definition store_note (note : string) : IO (bool * string) :=
  NoteService.store_note note.

Definition get_all_notes : IO string := NoteService.get_all_notes.

Definition classify_notes_prompt : string := NoteService.get_classification_prompt.

(** [ctx.sample(messages=..., max_tokens=..., temperature=...)]: the request
    goes to the client's language model, whose answer has a [text]. *)
Record SamplingRequest : Type := {
  messages : string;
  max_tokens : Z;
  temperature : Z * Z }.   (* the decimal literal, as numerator and denominator *)

Record SamplingContext : Type := { client_model : SamplingRequest -> string }.

(** A run of [classify_stored_notes]: the sampling requests it sent and
    the text it returned. *)
Record Classified : Type := {
  sampled : list SamplingRequest;
  returned : string }.

Definition classify_stored_notes (ctx : SamplingContext) (w : World.t)
  : World.t * Classified :=
  match NoteService.read_notes_content w with
  | (w', NoteService.RaisedException message) =>
      (w', {| sampled := []; returned := message |})
  | (w', NoteService.Returned notes_content) =>
      if String.eqb notes_content "" || String.eqb (Text.strip notes_content) "" then
        (w', {| sampled := []; returned := "Your notes are empty." |})
      else
        let message := NoteService.build_classification_message notes_content in
        let request :=
          {| messages := message; max_tokens := 1000; temperature := (2, 10)%Z |} in
        (w', {| sampled := [request]; returned := client_model ctx request |})
  end.

End Routes.

(** ** Vocabulary of the statements *)

Module Spec.

(** The value of the last header with the given name, if there is one. *)
Fixpoint last_header (name : string) (hs : list (string * string)) : option string :=
  match hs with
  | [] => None
  | (k, v) :: rest =>
      match last_header name rest with
      | Some v' => Some v'
      | None => if String.eqb k name then Some v else None
      end
  end.

(** A request that is not a CORS preflight: the CORS layer hands it on. *)
Definition plain_request (origin : string) : Asgi.Scope :=
  {| Asgi.type := "http"; Asgi.method := "GET";
     Asgi.headers := [("origin", origin)] |}.

(** A CORS preflight request. *)
Definition preflight_request (origin : string) : Asgi.Scope :=
  {| Asgi.type := "http"; Asgi.method := "OPTIONS";
     Asgi.headers := [("origin", origin); ("access-control-request-method", "POST")] |}.

(** A WebSocket handshake carrying an Origin header. *)
Definition websocket_scope (origin : string) : Asgi.Scope :=
  {| Asgi.type := "websocket"; Asgi.method := "GET";
     Asgi.headers := [("origin", origin)] |}.

(** An application as [mcp.http_app()] returns it: an authentication layer
    in front of a router that answers 200. *)
Definition sample_app : Starlette.t :=
  {| Starlette.user_middleware :=
       [{| Starlette.cls := "AuthenticationMiddleware"; Starlette.build := fun app => app |}];
     Starlette.router := fun _ => Asgi.respond 200 |}.

(** The validation block of the middleware, run on ASCII text against a
    given allow-list. *)
Definition origin_check (allowed : list string) : Asgi.Scope -> Py.result unit :=
  HostOriginValidationMiddleware.validate (H := PortableRuntime.runtime)
    (HostOriginValidationMiddleware.__init__ (H := PortableRuntime.runtime)
       (fun _ => Asgi.respond 200) allowed).

(** The role check, run on ASCII text. *)
Definition has_role : string -> Auth.AuthContext -> Py.result bool :=
  Auth.has_role (H := PortableRuntime.runtime).

(** The role claims of a token payload in Keycloak's layout: the strings
    under [realm_access.roles], none when [realm_access] or its [roles]
    entry is missing.  [None] when the payload has another layout. *)
Definition strings (l : list Py.value) : option (list string) :=
  mapM (fun v => match v with Py.VStr s => Some s | _ => None end) l.

Definition role_claims (claims : gmap string Py.value) : option (list string) :=
  match claims !! "realm_access" with
  | None => Some []
  | Some (Py.VDict realm_access) =>
      match realm_access !! "roles" with
      | None => Some []
      | Some (Py.VList roles) => strings roles
      | Some _ => None
      end
  | Some _ => None
  end.

(** An identity whose token carries the given realm roles. *)
Definition identity (roles : list string) : Auth.AuthContext :=
  {| Auth.token := {| Auth.claims :=
       {[ "sub" := Py.VStr "alice";
          "realm_access" := Py.VDict {[ "roles" := Py.VList (map Py.VStr roles) ]} ]} |} |}.

(** An identity whose token has no [realm_access] claim. *)
Definition identity_without_roles : Auth.AuthContext :=
  {| Auth.token := {| Auth.claims := {[ "sub" := Py.VStr "alice" ]} |} |}.

(** An identity whose [realm_access] claim is JSON null. *)
Definition identity_with_null_realm : Auth.AuthContext :=
  {| Auth.token := {| Auth.claims :=
       {[ "sub" := Py.VStr "alice"; "realm_access" := Py.VNone ]} |} |}.

(** The [status] and [message] entries of the response a tool returned. *)
Definition status {W} (run : W * Py.result NoteService.response) : option Py.value :=
  match snd run with
  | Py.Return d => d !! "status"
  | Py.Raise _ => None
  end.

Definition message {W} (run : W * Py.result NoteService.response) : option Py.value :=
  match snd run with
  | Py.Return d => d !! "message"
  | Py.Raise _ => None
  end.

Definition deleted {W} (run : W * Py.result NoteService.response) : option Py.value :=
  match snd run with
  | Py.Return d => d !! "deleted"
  | Py.Raise _ => None
  end.

(** A front-end that gives the same answer to every prompt. *)
Definition answering (r : World.ElicitationResult) : Routes.Context :=
  {| Routes.front_end := fun _ => Py.Return r |}.

Definition prompt_all : string := "Are you sure you want to delete ALL notes?".
Definition prompt_containing (contained_text : string) : string :=
  "Are you sure you want to delete all notes containing: '" ++ contained_text ++ "'?".

(** What one call of a guarded tool may do to the world: it asks once, and
    either leaves the notes file alone, or writes it once, after the
    question, the answer being an acceptance with the value [True]. *)
Definition guarded (ctx : Routes.Context) (prompt : string) (before after : World.t) : Prop :=
  let asked := World.Elicited prompt (Routes.front_end ctx prompt) in
  (World.journal after = (World.journal before ++ [asked])%list
   /\ World.notes after = World.notes before)
  \/ (exists content,
        World.journal after = (World.journal before ++ [asked; World.Wrote content])%list
        /\ World.notes after = Some content
        /\ Routes.front_end ctx prompt = Py.Return (World.AcceptedElicitation true)).

(** The notes of the specification's example. *)
Definition sample_notes : string :=
  "buy milk" ++ String NoteService.newline ("urgent: call bob" ++ String NoteService.newline "").

Definition sample_world : World.t :=
  {| World.notes := Some sample_notes; World.journal := [] |}.

(** A list of lines as [readlines] produces them: no line is empty, a line
    break occurs only at the end of a line, and every line but the last
    ends with one. *)
Fixpoint no_newline (s : string) : bool :=
  match s with
  | EmptyString => true
  | String c rest => negb (Ascii.eqb c NoteService.newline) && no_newline rest
  end.

Fixpoint terminated (s : string) : bool :=
  match s with
  | EmptyString => false
  | String c EmptyString => Ascii.eqb c NoteService.newline
  | String c rest => negb (Ascii.eqb c NoteService.newline) && terminated rest
  end.

Fixpoint lined (lines : list string) : bool :=
  match lines with
  | [] => true
  | [line] => terminated line || (no_newline line && negb (String.eqb line ""))
  | line :: rest => terminated line && lined rest
  end.

(** A sextet survives encoding to a URL-safe character and decoding, and
    its character is not the padding character. *)
Definition sextet_ok (n : N) : bool :=
  let c := Base64.urlsafe_char (Base64.char_of_sextet n) in
  N.eqb (Base64.sextet_of_urlsafe_char c) n && negb (Ascii.eqb c "=").

(** All the words of a given length over an alphabet. *)
Fixpoint words {A} (alphabet : list A) (n : nat) : list (list A) :=
  match n with
  | O => [[]]
  | S n' => a ← alphabet; cons a <$> words alphabet n'
  end.

Definition all_ascii : list ascii := map ascii_of_nat (seq 0 256).

(** All the strings of a given length. *)
Definition strings_of_length (n : nat) : list string :=
  map string_of_list_ascii (words all_ascii n).

(** The secrets of a given length written with the digits 0 and 1. *)
Definition binary_secrets (n : nat) : list string :=
  map string_of_list_ascii (words ["0"%char; "1"%char] n).

(** The text of the notes file, a missing file counting as empty. *)
Definition content_of (w : World.t) : string :=
  match World.notes w with
  | Some content => content
  | None => ""
  end.

(** The text holds no carriage return. *)
Fixpoint no_carriage_return (s : string) : bool :=
  match s with
  | EmptyString => true
  | String c rest => negb (Ascii.eqb c Text.carriage_return) && no_carriage_return rest
  end.

(** Every line of the text ends with a line break. *)
Definition complete (content : string) : bool :=
  forallb terminated (NoteService.readlines content).

(** The text is empty or its last character is a line break. *)
Fixpoint ends_with_newline (s : string) : bool :=
  match s with
  | EmptyString => true
  | String c rest =>
      match rest with
      | EmptyString => Ascii.eqb c NoteService.newline
      | String _ _ => ends_with_newline rest
      end
  end.

(** The number of lines of the notes file. *)
Definition line_count (w : World.t) : nat :=
  length (NoteService.readlines (content_of w)).

(** The characters of URL-safe base64 text: letters, digits, '-', '_' and
    the padding '='. *)
Definition url_safe (c : ascii) : bool :=
  Ascii7.is_alpha c || Ascii7.is_digit c
  || Ascii7.is_char "-" c || Ascii7.is_char "_" c || Ascii7.is_char "=" c.

(** A value that is not a string. *)
Definition not_a_string (v : Py.value) : bool :=
  match v with Py.VStr _ => false | _ => true end.

(** The world after a tool has put its question to the front-end. *)
Definition asked (ctx : Routes.Context) (prompt : string) (w : World.t) : World.t :=
  {| World.notes := World.notes w;
     World.journal :=
       (World.journal w ++ [World.Elicited prompt (Routes.front_end ctx prompt)])%list |}.

End Spec.

(** * Properties of the Origin validation middleware *)

Section OriginValidation.

Context `{Runtime}.

Import Asgi HostOriginValidationMiddleware.

Lemma dict_lookup_from (hs : list (string * string)) (m : gmap string string) (k : string) :
  foldl (fun m kv => <[fst kv := snd kv]> m) m hs !! k =
  match Spec.last_header k hs with
  | Some v => Some v
  | None => m !! k
  end.
Proof.
  revert m. induction hs as [|[k' v'] hs IH]; intros m; simpl; [done|].
  rewrite IH. destruct (Spec.last_header k hs); [done|].
  destruct (String.eqb_spec k' k) as [->|Hne].
  - by rewrite lookup_insert_eq.
  - by rewrite lookup_insert_ne.
Qed.

Lemma dict_lookup (hs : list (string * string)) (k : string) :
  dict hs !! k = Spec.last_header k hs.
Proof.
  unfold dict. rewrite dict_lookup_from, lookup_empty.
  by destruct (Spec.last_header k hs).
Qed.

Lemma allowed_hosts_init (app : App) (allowed : list string) (h : string) :
  h ∈ allowed_hosts (__init__ app allowed) ↔ h ∈ map str_lower allowed.
Proof. unfold __init__; simpl. by rewrite elem_of_list_to_set. Qed.

Lemma call_of_validate (self : t) (scope : Scope) :
  validate self scope = Py.Return tt -> __call__ self scope = app self scope.
Proof. unfold __call__. by intros ->. Qed.

Lemma call_of_rejection (self : t) (scope : Scope) (e : Py.exn) :
  validate self scope = Py.Raise e -> __call__ self scope = ([], Py.Raise e).
Proof. unfold __call__. by intros ->. Qed.

(** C10: an event whose scope type is not "http" is handed to the inner
    application as it is, whatever the allow-list and whatever Origin
    header it carries: the validation block is skipped and the run of the
    middleware is the run of the inner application on the same scope. *)
Theorem non_http_scope_is_forwarded (inner : App) (allowed : list string) (scope : Scope) :
  type scope ≠ "http" ->
  validate (__init__ inner allowed) scope = Py.Return tt
  /\ __call__ (__init__ inner allowed) scope = inner scope.
Proof.
  intros Hty.
  assert (validate (__init__ inner allowed) scope = Py.Return tt) as Hv.
  { unfold validate. by destruct (String.eqb_spec (type scope) "http"). }
  split; [done|]. by rewrite (call_of_validate _ _ Hv).
Qed.

(** C3, as the code has it: for an HTTP request the decision depends on the
    last Origin header only.  Without one, or with an empty one, the request
    is allowed whatever the allow-list.  Otherwise, when the value decodes
    and parses, a scheme other than http and https is rejected, and with
    such a scheme the request is allowed iff the parsed hostname is in the
    lower-cased allow-list, and rejected if not. *)
Theorem origin_decision (inner : App) (allowed : list string) (scope : Scope) :
  type scope = "http" ->
  let outcome := validate (__init__ inner allowed) scope in
  (Spec.last_header "origin" (headers scope) = None -> outcome = Py.Return tt)
  /\ (Spec.last_header "origin" (headers scope) = Some "" -> outcome = Py.Return tt)
  /\ (forall origin text parsed,
        Spec.last_header "origin" (headers scope) = Some origin ->
        origin ≠ "" ->
        bytes_decode origin = Py.Return text ->
        urlparse (str_lower text) = Py.Return parsed ->
        (Urllib.scheme parsed ∉ ["http"; "https"] -> outcome = Py.Raise forbidden)
        /\ (Urllib.scheme parsed ∈ ["http"; "https"] ->
            (outcome = Py.Return tt <->
               exists h, Urllib.hostname parsed = Some h /\ h ∈ map str_lower allowed)
            /\ (outcome = Py.Return tt \/ outcome = Py.Raise forbidden))).
Proof.
  intros Hty outcome. subst outcome. unfold validate.
  rewrite Hty, dict_lookup. simpl.
  split; [by intros -> | split; [by intros -> |]].
  intros origin text parsed -> Hne Hdec Hparse.
  destruct origin as [|c origin]; [done|].
  rewrite Hdec. simpl. rewrite Hparse. simpl.
  split.
  - intros Hs. by rewrite bool_decide_eq_false_2.
  - intros Hs. rewrite bool_decide_eq_true_2 by done. simpl.
    destruct (Urllib.hostname parsed) as [h|] eqn:Hh.
    + destruct (decide (h ∈ allowed_hosts (__init__ inner allowed))) as [Hin|Hnin].
      * rewrite bool_decide_eq_true_2 by done. simpl. split; [|by left].
        split; [|done]. intros _. exists h. split; [done|].
        by apply allowed_hosts_init in Hin.
      * rewrite bool_decide_eq_false_2 by done. simpl. split; [|by right].
        split; [done|]. intros (h' & [= <-] & Hin).
        exfalso. apply Hnin. by apply allowed_hosts_init.
    + simpl. split; [|by right]. split; [done|]. by intros (h' & ? & _).
Qed.

End OriginValidation.

Section OriginValidationExamples.

Import Asgi HostOriginValidationMiddleware.

(** The three sample requests of the specification. *)
Example evil_origin_is_rejected :
  Spec.origin_check ["localhost"] (Spec.plain_request "http://evil.example") = Py.Raise forbidden.
Proof. vm_compute. reflexivity. Qed.

Example localhost_origin_is_allowed :
  Spec.origin_check ["localhost"] (Spec.plain_request "http://localhost") = Py.Return tt.
Proof. vm_compute. reflexivity. Qed.

Example missing_origin_is_allowed (allowed : list string) :
  Spec.origin_check allowed {| type := "http"; method := "GET"; headers := [] |} = Py.Return tt.
Proof. reflexivity. Qed.

(** Case does not matter, neither in the header nor in the allow-list. *)
Example origin_case_is_ignored :
  Spec.origin_check ["LocalHost"] (Spec.plain_request "HTTP://LOCALHOST:8000") = Py.Return tt.
Proof. vm_compute. reflexivity. Qed.

(** The opaque origin that browsers send as "null" has no scheme. *)
Example null_origin_is_rejected :
  Spec.origin_check ["localhost"] (Spec.plain_request "null") = Py.Raise forbidden.
Proof. vm_compute. reflexivity. Qed.

(** With two Origin headers the last one decides. *)
Example last_origin_header_decides :
  Spec.origin_check ["localhost"]
    {| type := "http"; method := "GET";
       headers := [("origin", "http://localhost"); ("origin", "http://evil.example")] |}
  = Py.Raise forbidden.
Proof. vm_compute. reflexivity. Qed.

(** A value that is not UTF-8 is neither allowed nor rejected with 403:
    the decoding error escapes. *)
Example undecodable_origin_escapes :
  Spec.origin_check ["localhost"] (Spec.plain_request (String (ascii_of_nat 255) ""))
  = Py.Raise Py.UnicodeDecodeError.
Proof. vm_compute. reflexivity. Qed.

Lemma non_http_scope_is_forwarded_witness :
  type (Spec.websocket_scope "http://evil.example") ≠ "http"
  /\ __call__ (H := PortableRuntime.runtime)
       (__init__ (H := PortableRuntime.runtime) (fun _ => respond 101) ["localhost"])
       (Spec.websocket_scope "http://evil.example")
     = respond 101.
Proof.
  assert (type (Spec.websocket_scope "http://evil.example") ≠ "http") as Hty
    by (simpl; discriminate).
  split; [exact Hty|].
  exact (proj2 (non_http_scope_is_forwarded (H := PortableRuntime.runtime)
                  (fun _ => respond 101) ["localhost"]
                  (Spec.websocket_scope "http://evil.example") Hty)).
Defined.

(** C3, as stated, fails on a request whose Origin header is empty: the
    request carries the header, the parsed value has no scheme (so neither
    http nor https), and the request is allowed. *)
Lemma empty_origin_header_is_allowed :
  Spec.last_header "origin" (headers (Spec.plain_request "")) = Some ""
  /\ (exists text parsed,
        @bytes_decode PortableRuntime.runtime "" = Py.Return text
        /\ @urlparse PortableRuntime.runtime (@str_lower PortableRuntime.runtime text)
           = Py.Return parsed
        /\ Urllib.scheme parsed ∉ ["http"; "https"])
  /\ Spec.origin_check ["localhost"] (Spec.plain_request "") = Py.Return tt.
Proof.
  split; [reflexivity|]. split; [|reflexivity].
  exists "", {| Urllib.scheme := ""; Urllib.hostname := None |}.
  split; [reflexivity|]. split; [reflexivity|].
  simpl. intros Hin.
  repeat (apply elem_of_cons in Hin as [Hin|Hin]; [discriminate Hin|]).
  by apply elem_of_nil in Hin.
Qed.

Lemma origin_decision_witness :
  type (Spec.plain_request "http://localhost") = "http"
  /\ Spec.origin_check Config.ALLOWED_ORIGINS (Spec.plain_request "http://localhost")
     = Py.Return tt.
Proof.
  split; [reflexivity|].
  destruct (origin_decision (H := PortableRuntime.runtime) (fun _ => respond 200)
              Config.ALLOWED_ORIGINS (Spec.plain_request "http://localhost") eq_refl)
    as (_ & _ & Hrule).
  destruct (Hrule "http://localhost" "http://localhost"
              {| Urllib.scheme := "http"; Urllib.hostname := Some "localhost" |}
              eq_refl ltac:(discriminate) eq_refl eq_refl) as [_ Hallow].
  destruct Hallow as [Hiff _].
  - simpl. repeat constructor.
  - apply Hiff. exists "localhost". split; [reflexivity|].
    vm_compute. repeat constructor.
Defined.

End OriginValidationExamples.

(** * The request pipeline that [main.py] assembles *)

Section Pipeline.

Import Asgi.

Lemma server_error_keeps_prefix (app : App) (scope : Scope) (e : event) (es : list event)
    (r : Py.result unit) :
  app scope = (e :: es, r) ->
  exists rest, fst (Starlette.build Starlette.ServerErrorMiddleware app scope) = e :: rest.
Proof.
  intros Happ. cbn [Starlette.build Starlette.ServerErrorMiddleware].
  destruct (String.eqb (type scope) "http"); rewrite Happ; [|by eexists].
  destruct r; [by eexists|].
  match goal with |- context [if ?b then _ else _] => destruct b end;
    eexists; reflexivity.
Qed.

Lemma run_configured_shape `{Runtime} (inner : Starlette.t) :
  exists app : App,
    Starlette.run (Main.configure_middleware inner)
    = Starlette.build Starlette.ServerErrorMiddleware
        (fun scope => emit [Entered "CORSMiddleware"] (app scope)).
Proof. eexists. reflexivity. Qed.

(** C1 fails on the code.  [add_middleware] puts each middleware in front
    of the ones added before it, so the CORS middleware, added last, is the
    outermost of the two: it is entered first on every request, the Origin
    validation comes after it, and a preflight request from a foreign
    origin is answered by the CORS layer alone. *)
Theorem cors_layer_runs_before_origin_validation :
  (forall (rt : Runtime) (inner : Starlette.t),
     map Starlette.cls (Starlette.user_middleware (Main.configure_middleware inner))
     = "CORSMiddleware" :: "HostOriginValidationMiddleware"
         :: map Starlette.cls (Starlette.user_middleware inner))
  /\ (forall (rt : Runtime) (inner : Starlette.t) (scope : Scope),
        exists rest,
          fst (Starlette.run (Main.configure_middleware inner) scope)
          = Entered "CORSMiddleware" :: rest)
  /\ layers (Starlette.run (Main.configure_middleware (H := PortableRuntime.runtime)
                              Spec.sample_app)
               (Spec.plain_request "http://evil.example"))
     = ["CORSMiddleware"; "HostOriginValidationMiddleware"]
  /\ Starlette.run (Main.configure_middleware (H := PortableRuntime.runtime)
                      Spec.sample_app)
       (Spec.preflight_request "http://evil.example")
     = ([Entered "CORSMiddleware"; ResponseStart 400], Py.Return tt).
Proof.
  split; [reflexivity|]. split; [|split; vm_compute; reflexivity].
  intros rt inner scope.
  destruct (run_configured_shape inner) as [app ->].
  eapply (server_error_keeps_prefix _ scope (Entered "CORSMiddleware")
            (fst (app scope)) (snd (app scope))).
  reflexivity.
Qed.

(** C2 fails on the code.  For a request whose Origin is not on the
    allow-list the middleware raises [http.client.HTTPException] with the
    arguments 403 and "Invalid Origin".  That class is not an HTTP error
    response: the exception escapes to the server-error layer and the client
    receives status 500.  The layers behind the middleware are not entered,
    whatever they are. *)
Theorem rejected_origin_is_answered_with_500 (inner : Starlette.t) :
  let run := Starlette.run (Main.configure_middleware (H := PortableRuntime.runtime) inner)
               (Spec.plain_request "http://evil.example") in
  run = ([Entered "CORSMiddleware"; Entered "HostOriginValidationMiddleware";
          ResponseStart 500],
         Py.Raise HostOriginValidationMiddleware.forbidden)
  /\ statuses run = [500%Z]
  /\ layers run = ["CORSMiddleware"; "HostOriginValidationMiddleware"].
Proof.
  destruct inner as [mws router].
  assert (Starlette.run
            (Main.configure_middleware (H := PortableRuntime.runtime)
               {| Starlette.user_middleware := mws; Starlette.router := router |})
            (Spec.plain_request "http://evil.example")
          = ([Entered "CORSMiddleware"; Entered "HostOriginValidationMiddleware";
              ResponseStart 500],
             Py.Raise HostOriginValidationMiddleware.forbidden)) as Hrun.
  { unfold Starlette.run, Starlette.build_middleware_stack. simpl.
    rewrite (call_of_rejection (H := PortableRuntime.runtime) _ _
               HostOriginValidationMiddleware.forbidden); [reflexivity|].
    vm_compute. reflexivity. }
  simpl. rewrite Hrun. repeat split.
Qed.

End Pipeline.

(** * The role check *)

Section RoleCheck.

Context `{Runtime}.

Lemma lower_strings (l : list Py.value) (roles : list string) :
  Spec.strings l = Some roles ->
  mapM Auth.lower l = Py.Return (map str_lower roles).
Proof.
  revert roles. induction l as [|v l IH]; intros roles Hl.
  - injection Hl as <-. reflexivity.
  - unfold Spec.strings in Hl. simpl in Hl.
    destruct v as [| | |s| |]; try discriminate Hl.
    simpl in Hl.
    match type of Hl with
    | context [mapM ?f l] => destruct (mapM f l) as [rest|] eqn:Hrest
    end; simpl in Hl; [|discriminate Hl].
    injection Hl as <-. simpl.
    rewrite (IH rest Hrest). reflexivity.
Qed.

Lemma has_role_of_claims (role : string) (ctx : Auth.AuthContext) (roles : list string) :
  Spec.role_claims (Auth.claims (Auth.token ctx)) = Some roles ->
  Auth.has_role role ctx = Py.Return (bool_decide (str_lower role ∈ map str_lower roles)).
Proof.
  unfold Spec.role_claims, Auth.has_role. intros Hroles.
  destruct (Auth.claims (Auth.token ctx) !! "realm_access") as [[| | | | |d]|];
    try discriminate Hroles.
  - simpl. destruct (d !! "roles") as [[| | | |l|]|]; try discriminate Hroles.
    + simpl. rewrite (lower_strings l roles Hroles). reflexivity.
    + injection Hroles as <-. reflexivity.
  - injection Hroles as <-. simpl. rewrite lookup_empty. reflexivity.
Qed.

(** C4, as the code has it: for an identity whose token payload follows
    Keycloak's layout ([realm_access], when present, is a mapping, and its
    [roles] entry, when present, is a list of strings), the check returns
    true iff the lower-cased required role is among the lower-cased role
    claims; it returns false, and does not raise, when the payload has no
    [realm_access] claim or no [roles] entry in it. *)
Theorem has_role_keycloak_layout (role : string) (ctx : Auth.AuthContext) (roles : list string) :
  Spec.role_claims (Auth.claims (Auth.token ctx)) = Some roles ->
  (exists b, Auth.has_role role ctx = Py.Return b
             /\ (b = true <-> str_lower role ∈ map str_lower roles))
  /\ (roles = [] -> Auth.has_role role ctx = Py.Return false).
Proof.
  intros Hroles. rewrite (has_role_of_claims role ctx roles Hroles). split.
  - eexists. split; [reflexivity|]. apply bool_decide_eq_true.
  - intros ->. reflexivity.
Qed.

End RoleCheck.

Section RoleCheckExamples.

(** The role-gate samples of the specification. *)
Example read_only_identity_may_not_write :
  Spec.has_role "mcp_write" (Spec.identity ["mcp_read"]) = Py.Return false.
Proof. vm_compute. reflexivity. Qed.

Example writer_identity_may_write :
  Spec.has_role "mcp_write" (Spec.identity ["mcp_read"; "mcp_write"]) = Py.Return true.
Proof. vm_compute. reflexivity. Qed.

Example identity_without_roles_is_refused (role : string) :
  Spec.has_role role Spec.identity_without_roles = Py.Return false
  /\ Spec.has_role role (Spec.identity []) = Py.Return false.
Proof.
  split.
  - apply (has_role_of_claims (H := PortableRuntime.runtime) role _ []). reflexivity.
  - apply (has_role_of_claims (H := PortableRuntime.runtime) role _ []). reflexivity.
Qed.

Example role_case_is_ignored :
  Spec.has_role "MCP_Write" (Spec.identity ["mcp_read"; "Mcp_WRITE"]) = Py.Return true.
Proof. vm_compute. reflexivity. Qed.

(** C4, as stated, fails on an identity without role claims whose
    [realm_access] claim is null: the check raises instead of returning
    false. *)
Lemma has_role_raises_on_null_realm_access :
  Spec.role_claims (Auth.claims (Auth.token Spec.identity_with_null_realm)) = None
  /\ Spec.has_role "mcp_write" Spec.identity_with_null_realm
     = Py.Raise (Py.AttributeError "object has no attribute 'get'")
  /\ forall b, Spec.has_role "mcp_write" Spec.identity_with_null_realm ≠ Py.Return b.
Proof.
  assert (Spec.has_role "mcp_write" Spec.identity_with_null_realm
          = Py.Raise (Py.AttributeError "object has no attribute 'get'")) as Hraise
    by (vm_compute; reflexivity).
  split; [vm_compute; reflexivity|]. split; [exact Hraise|].
  intros b. rewrite Hraise. discriminate.
Qed.

Lemma has_role_keycloak_layout_witness :
  Spec.role_claims (Auth.claims (Auth.token (Spec.identity ["mcp_read"; "Mcp_Write"])))
  = Some ["mcp_read"; "Mcp_Write"]
  /\ exists b, Spec.has_role "MCP_WRITE" (Spec.identity ["mcp_read"; "Mcp_Write"]) = Py.Return b
               /\ (b = true <-> "mcp_write" ∈ ["mcp_read"; "mcp_write"]).
Proof.
  assert (Spec.role_claims (Auth.claims (Auth.token (Spec.identity ["mcp_read"; "Mcp_Write"])))
          = Some ["mcp_read"; "Mcp_Write"]) as Hroles by (vm_compute; reflexivity).
  split; [exact Hroles|].
  exact (proj1 (has_role_keycloak_layout (H := PortableRuntime.runtime) "MCP_WRITE"
                  (Spec.identity ["mcp_read"; "Mcp_Write"])
                  ["mcp_read"; "Mcp_Write"] Hroles)).
Defined.

End RoleCheckExamples.

(** * The confirmation-guarded delete tools *)

Section GuardedTools.

Import World.

Ltac run_tool :=
  unfold Routes.delete_all_notes, Routes.delete_note, Routes.elicit,
    NoteService.delete_all_notes, NoteService.delete_notes_containing,
    NoteService.failed, try_except, exists_, read, write,
    mbind, mret, io_bind, io_ret, bind, ret; simpl.



Lemma delete_all_notes_guarded (ctx : Routes.Context) (w : World.t) :
  Spec.guarded ctx Spec.prompt_all w (fst (Routes.delete_all_notes ctx w)).
Proof.
  unfold Spec.guarded. run_tool.
  change (Routes.front_end ctx "Are you sure you want to delete ALL notes?")
    with (Routes.front_end ctx Spec.prompt_all).
  destruct (Routes.front_end ctx Spec.prompt_all) as [[[|]| |]|e] eqn:Hanswer;
    simpl; try (by left).
  destruct (notes w) as [content|] eqn:Hnotes; simpl.
  - right. exists "". by rewrite <- app_assoc.
  - by left.
Qed.

Lemma delete_note_guarded (contained_text : string) (ctx : Routes.Context) (w : World.t) :
  Spec.guarded ctx (Spec.prompt_containing contained_text) w
    (fst (Routes.delete_note contained_text ctx w)).
Proof.
  unfold Spec.guarded. run_tool.
  change ("Are you sure you want to delete all notes containing: '"
          ++ contained_text ++ "'?") with (Spec.prompt_containing contained_text).
  destruct (Routes.front_end ctx (Spec.prompt_containing contained_text))
    as [[[|]| |]|e] eqn:Hanswer; simpl; try (by left).
  destruct (notes w) as [content|] eqn:Hnotes; simpl.
  - right. eexists. by rewrite <- app_assoc.
  - by left.
Qed.

Lemma guarded_writes (ctx : Routes.Context) (prompt : string) (before after : World.t) :
  Spec.guarded ctx prompt before after ->
  (writes (journal after) = writes (journal before)
   \/ exists content, writes (journal after) = (writes (journal before) ++ [content])%list).
Proof.
  unfold writes. intros [[-> _]|(content & -> & _)].
  - left. rewrite omap_app. simpl. by rewrite app_nil_r.
  - right. exists content. by rewrite omap_app.
Qed.

(** C6: one call of [delete_all_notes] or of [delete_note] asks for
    confirmation once and writes the notes file at most once; when it
    writes, the write follows the question in the journal and the answer was
    an acceptance with the value [True].  After a declined or cancelled
    confirmation, an acceptance with any other value, or a confirmation
    that failed, the file is not written and keeps its content. *)
Theorem guarded_effect_at_most_once (contained_text : string) (ctx : Routes.Context)
    (w : World.t) :
  let after_all := fst (Routes.delete_all_notes ctx w) in
  let after_one := fst (Routes.delete_note contained_text ctx w) in
  (Spec.guarded ctx Spec.prompt_all w after_all
   /\ Spec.guarded ctx (Spec.prompt_containing contained_text) w after_one)
  /\ (length (writes (journal after_all)) <= length (writes (journal w)) + 1
      /\ length (writes (journal after_one)) <= length (writes (journal w)) + 1)
  /\ (Routes.front_end ctx Spec.prompt_all ≠ Py.Return (AcceptedElicitation true) ->
      writes (journal after_all) = writes (journal w) /\ notes after_all = notes w)
  /\ (Routes.front_end ctx (Spec.prompt_containing contained_text)
        ≠ Py.Return (AcceptedElicitation true) ->
      writes (journal after_one) = writes (journal w) /\ notes after_one = notes w).
Proof.
  intros after_all after_one.
  pose proof (delete_all_notes_guarded ctx w) as Hall.
  pose proof (delete_note_guarded contained_text ctx w) as Hone.
  fold after_all in Hall. fold after_one in Hone.
  split; [by split|]. split; [split|split].
  - destruct (guarded_writes _ _ _ _ Hall) as [->|[c ->]];
      [lia | rewrite length_app; simpl; lia].
  - destruct (guarded_writes _ _ _ _ Hone) as [->|[c ->]];
      [lia | rewrite length_app; simpl; lia].
  - intros Hno. destruct Hall as [[Hj Hn]|(c & _ & _ & Hyes)]; [|done].
    split; [|done]. rewrite Hj. unfold writes. rewrite omap_app. simpl.
    by rewrite app_nil_r.
  - intros Hno. destruct Hone as [[Hj Hn]|(c & _ & _ & Hyes)]; [|done].
    split; [|done]. rewrite Hj. unfold writes. rewrite omap_app. simpl.
    by rewrite app_nil_r.
Qed.

End GuardedTools.

(** * The note service: deleting the notes that contain a text *)

Section DeleteContaining.

Import World NoteService.

Lemma append_empty (x : string) : x ++ "" = x.
Proof.
  induction x as [|c x IH]; [reflexivity|].
  change (String c (x ++ "") = String c x). by rewrite IH.
Qed.

Lemma joined_cons (x : string) (l : list string) : joined (x :: l) = x ++ joined l.
Proof.
  unfold joined. destruct l as [|y l]; simpl; [|reflexivity].
  by rewrite append_empty.
Qed.

Lemma terminated_nonempty (x : string) : Spec.terminated x = true -> x ≠ "".
Proof. by destruct x. Qed.

Lemma terminated_cons (c : ascii) (x : string) :
  x ≠ "" ->
  Spec.terminated (String c x) = negb (Ascii.eqb c newline) && Spec.terminated x.
Proof. by destruct x. Qed.

Lemma lined_cons (x : string) (l : list string) :
  Spec.lined (x :: l) = true <->
  (Spec.terminated x = true /\ Spec.lined l = true)
  \/ (l = [] /\ Spec.no_newline x = true /\ x ≠ "").
Proof.
  destruct l as [|y l].
  - simpl. rewrite orb_true_iff, andb_true_iff, negb_true_iff.
    destruct (String.eqb_spec x "") as [->|Hne]; split.
    + intros [Hterm|[_ Hfalse]]; [by left | discriminate Hfalse].
    + intros [[Hterm _]|(_ & _ & Hne)]; [by left | done].
    + intros [Hterm|[Hno _]]; [by left | by right].
    + intros [[Hterm _]|(_ & Hno & _)]; [by left | by right].
  - change (Spec.lined (x :: y :: l)) with (Spec.terminated x && Spec.lined (y :: l)).
    rewrite andb_true_iff. split; [by left|].
    intros [Hboth|(Hnil & _)]; [done | discriminate Hnil].
Qed.

Lemma readlines_lined (s : string) : Spec.lined (readlines s) = true.
Proof.
  induction s as [|c s IH]; [reflexivity|]. simpl.
  destruct (Ascii.eqb c newline) eqn:Hc.
  - apply lined_cons. left. split; [|done]. simpl. exact Hc.
  - destruct (readlines s) as [|line lines]; [simpl; by rewrite Hc|].
    apply lined_cons. apply lined_cons in IH as [[Hterm Hl]|(-> & Hno & Hne)].
    + left. split; [|done].
      rewrite terminated_cons by by apply terminated_nonempty.
      by rewrite Hc.
    + right. split; [done|]. split; [|done]. simpl. by rewrite Hc.
Qed.

Lemma joined_readlines (s : string) : joined (readlines s) = s.
Proof.
  induction s as [|c s IH]; [reflexivity|]. simpl.
  destruct (Ascii.eqb c newline).
  - rewrite joined_cons, IH. reflexivity.
  - destruct (readlines s) as [|line lines]; [by rewrite <- IH|].
    rewrite joined_cons. rewrite joined_cons in IH.
    change (String c (line ++ joined lines) = String c s). by rewrite IH.
Qed.

Lemma readlines_terminated (x rest : string) :
  Spec.terminated x = true -> readlines (x ++ rest) = x :: readlines rest.
Proof.
  induction x as [|c x IH]; [done|]. intros Hterm.
  destruct x as [|d x].
  - simpl in *. by rewrite Hterm.
  - rewrite terminated_cons in Hterm by done.
    apply andb_true_iff in Hterm as [Hc Hterm]. apply negb_true_iff in Hc.
    change (String c (String d x) ++ rest) with (String c (String d x ++ rest)).
    change (readlines (String c (String d x ++ rest)))
      with (if Ascii.eqb c newline
            then String c EmptyString :: readlines (String d x ++ rest)
            else match readlines (String d x ++ rest) with
                 | [] => [String c EmptyString]
                 | line :: lines => String c line :: lines
                 end).
    by rewrite Hc, (IH Hterm).
Qed.

Lemma readlines_unterminated (x : string) :
  Spec.no_newline x = true -> x ≠ "" -> readlines x = [x].
Proof.
  induction x as [|c x IH]; [done|]. intros Hno _.
  simpl in Hno. apply andb_true_iff in Hno as [Hc Hno]. apply negb_true_iff in Hc.
  simpl. rewrite Hc. destruct x as [|d x]; [reflexivity|].
  by rewrite IH.
Qed.

Lemma readlines_joined (l : list string) :
  Spec.lined l = true -> readlines (joined l) = l.
Proof.
  induction l as [|x l IH]; [reflexivity|]. intros Hl.
  rewrite joined_cons. apply lined_cons in Hl as [[Hterm Hl]|(-> & Hno & Hne)].
  - by rewrite (readlines_terminated _ _ Hterm), IH.
  - unfold joined. simpl. rewrite append_empty.
    by apply readlines_unterminated.
Qed.

Lemma lined_filter (p : string -> bool) (l : list string) :
  Spec.lined l = true -> Spec.lined (List.filter p l) = true.
Proof.
  induction l as [|x l IH]; [done|]. intros Hl. simpl.
  apply lined_cons in Hl as [[Hterm Hl]|(-> & Hno & Hne)].
  - destruct (p x); [|by apply IH].
    apply lined_cons. left. split; [done|]. by apply IH.
  - simpl. destruct (p x); [|done]. apply lined_cons. right. done.
Qed.

Lemma deleted_count (p : string -> bool) (l : list string) :
  (Z.of_nat (length l) - Z.of_nat (length (List.filter (fun x => negb (p x)) l)))%Z
  = Z.of_nat (length (List.filter p l)).
Proof. pose proof (List.filter_length p l). lia. Qed.

(** C7: when the notes file exists, with the lines [readlines] yields for
    its content, [delete_notes_containing] writes back exactly the lines
    that do not contain the text, in their order, and returns status
    "success" with [deleted] the number of lines that contain it. *)
Theorem delete_notes_containing_filters (contained_text content : string) (w : World.t) :
  notes w = Some content ->
  let lines := readlines content in
  let kept := List.filter (fun line => negb (contains contained_text line)) lines in
  let run := delete_notes_containing contained_text w in
  joined lines = content
  /\ notes (fst run) = Some (joined kept)
  /\ readlines (joined kept) = kept
  /\ journal (fst run) = (journal w ++ [Wrote (joined kept)])%list
  /\ Spec.status run = Some (Py.VStr "success")
  /\ Spec.deleted run
     = Some (Py.VInt (Z.of_nat (length (List.filter (contains contained_text) lines)))).
Proof.
  intros Hnotes lines kept run.
  split; [apply joined_readlines|].
  assert (readlines (joined kept) = kept) as Hkept
    by (apply readlines_joined, lined_filter, readlines_lined).
  destruct w as [file events]. simpl in Hnotes. subst file.
  subst run. unfold delete_notes_containing, try_except, exists_, read, write,
    mbind, mret, io_bind, io_ret, bind, ret. simpl.
  fold lines. fold kept. repeat split; try done.
  unfold Spec.deleted. cbn [snd].
  transitivity (Some (Py.VInt (Z.of_nat (length lines) - Z.of_nat (length kept))));
    [reflexivity|].
  subst kept. by rewrite deleted_count.
Qed.

(** The example of the specification: of the stored lines "buy milk" and
    "urgent: call bob", exactly the second contains "urgent". *)
Lemma delete_notes_containing_filters_witness :
  notes Spec.sample_world = Some Spec.sample_notes
  /\ readlines Spec.sample_notes
     = ["buy milk" ++ String newline ""; "urgent: call bob" ++ String newline ""]
  /\ notes (fst (delete_notes_containing "urgent" Spec.sample_world))
     = Some ("buy milk" ++ String newline "")
  /\ Spec.status (delete_notes_containing "urgent" Spec.sample_world)
     = Some (Py.VStr "success")
  /\ Spec.deleted (delete_notes_containing "urgent" Spec.sample_world)
     = Some (Py.VInt 1).
Proof.
  split; [reflexivity|]. split; [reflexivity|].
  destruct (delete_notes_containing_filters "urgent" Spec.sample_notes
              Spec.sample_world eq_refl) as (_ & Hnotes & _ & _ & Hstatus & Hdeleted).
  split; [exact Hnotes|]. split; [exact Hstatus | exact Hdeleted].
Defined.

End DeleteContaining.

(** * Key derivation *)

Section KeyDerivation.

Local Open Scope N_scope.

Lemma length_translate (f : ascii -> ascii) (s : string) :
  String.length (Base64.translate f s) = String.length s.
Proof. induction s as [|c s IH]; simpl; [reflexivity|]. by rewrite IH. Qed.

Lemma length_string_of_list_ascii (l : list ascii) :
  String.length (string_of_list_ascii l) = length l.
Proof. induction l as [|c l IH]; simpl; [reflexivity|]. by rewrite IH. Qed.

Lemma length_list_ascii_of_string (s : string) :
  length (list_ascii_of_string s) = String.length s.
Proof. induction s as [|c s IH]; simpl; [reflexivity|]. by rewrite IH. Qed.

Lemma length_bytes_of_string (s : string) :
  length (Sha256.bytes_of_string s) = String.length s.
Proof. unfold Sha256.bytes_of_string. by rewrite length_map, length_list_ascii_of_string. Qed.

Lemma length_state_bytes (st : Sha256.state) : length (Sha256.state_bytes st) = 32%nat.
Proof. reflexivity. Qed.

Lemma length_digest (msg : string) : String.length (Sha256.digest msg) = 32%nat.
Proof.
  unfold Sha256.digest, Sha256.digest_bytes, Sha256.string_of_bytes.
  by rewrite length_string_of_list_ascii, length_map, length_state_bytes.
Qed.

Lemma length_encode_32 (l : list N) :
  length l = 32%nat -> String.length (Base64.encode_bytes l) = 44%nat.
Proof.
  intros Hl.
  do 32 (destruct l as [|? l]; [discriminate Hl|]).
  destruct l; [reflexivity | discriminate Hl].
Qed.

Lemma length_derive_fernet_key (s : string) :
  String.length (Config.derive_fernet_key s) = 44%nat.
Proof.
  unfold Config.derive_fernet_key, Base64.urlsafe_b64encode, Base64.b64encode.
  rewrite length_translate. apply length_encode_32.
  by rewrite length_bytes_of_string, length_digest.
Qed.

Lemma sextets_checked : forallb Spec.sextet_ok (map N.of_nat (seq 0 64)) = true.
Proof. vm_compute. reflexivity. Qed.

Lemma sextet_roundtrip (n : N) :
  n < 64 ->
  let c := Base64.urlsafe_char (Base64.char_of_sextet n) in
  Base64.sextet_of_urlsafe_char c = n /\ Ascii.eqb c "=" = false.
Proof.
  intros Hn c.
  assert (Spec.sextet_ok n = true) as Hok.
  { apply (proj1 (forallb_forall _ _) sextets_checked).
    apply in_map_iff. exists (N.to_nat n). split; [lia|].
    apply in_seq. lia. }
  unfold Spec.sextet_ok in Hok. fold c in Hok.
  apply andb_true_iff in Hok as [Heq Hpad].
  apply N.eqb_eq in Heq. apply negb_true_iff in Hpad. done.
Qed.

Lemma list_ind3 {A} (P : list A -> Prop) :
  P [] -> (forall a, P [a]) -> (forall a b, P [a; b]) ->
  (forall a b c l, P l -> P (a :: b :: c :: l)) ->
  forall l, P l.
Proof.
  intros H0 H1 H2 H3 l.
  assert (P l /\ (forall a, P (a :: l)) /\ (forall a b, P (a :: b :: l))) as [Hl _].
  { induction l as [|x l (IHl & IH1 & IH2)]; [done|].
    split; [apply IH1|]. split; [intros a; apply IH2|].
    intros a b. by apply H3. }
  exact Hl.
Qed.

Lemma quad_arith (a b c : N) :
  a < 256 -> b < 256 -> c < 256 ->
  a / 4 < 64 /\ a mod 4 * 16 + b / 16 < 64 /\ b mod 16 * 4 + c / 64 < 64 /\ c mod 64 < 64
  /\ a / 4 * 4 + (a mod 4 * 16 + b / 16) / 16 = a
  /\ (a mod 4 * 16 + b / 16) mod 16 * 16 + (b mod 16 * 4 + c / 64) / 4 = b
  /\ (b mod 16 * 4 + c / 64) mod 4 * 64 + c mod 64 = c.
Proof.
  intros Ha Hb Hc.
  pose proof (N.div_mod a 4 ltac:(lia)) as Ea. pose proof (N.mod_lt a 4 ltac:(lia)) as La.
  pose proof (N.div_mod b 16 ltac:(lia)) as Eb. pose proof (N.mod_lt b 16 ltac:(lia)) as Lb.
  pose proof (N.div_mod c 64 ltac:(lia)) as Ec. pose proof (N.mod_lt c 64 ltac:(lia)) as Lc.
  set (qa := a / 4) in *. set (ra := a mod 4) in *.
  set (qb := b / 16) in *. set (rb := b mod 16) in *.
  set (qc := c / 64) in *. set (rc := c mod 64) in *.
  clearbody qa ra qb rb qc rc.
  assert ((ra * 16 + qb) / 16 = ra) as ->.
  { symmetry. apply (N.div_unique _ 16 _ qb); lia. }
  assert ((ra * 16 + qb) mod 16 = qb) as ->.
  { symmetry. apply (N.mod_unique _ 16 ra); lia. }
  assert ((rb * 4 + qc) / 4 = rb) as ->.
  { symmetry. apply (N.div_unique _ 4 _ qc); lia. }
  assert ((rb * 4 + qc) mod 4 = qc) as ->.
  { symmetry. apply (N.mod_unique _ 4 rb); lia. }
  lia.
Qed.

Lemma urlsafe_roundtrip (l : list N) :
  Forall (fun b => b < 256) l ->
  Base64.urlsafe_decode_bytes (Base64.translate Base64.urlsafe_char (Base64.encode_bytes l)) = l.
Proof.
  induction l as [|a|a b|a b c l IH] using list_ind3; intros Hl.
  - reflexivity.
  - apply Forall_cons in Hl as [Ha _].
    destruct (quad_arith a 0 0 Ha) as (H1 & H2 & _ & _ & E1 & _); [lia..|].
    change (0 / 16) with 0 in *. rewrite N.add_0_r in *.
    simpl.
    destruct (sextet_roundtrip _ H1) as [-> _].
    destruct (sextet_roundtrip _ H2) as [-> _].
    by rewrite E1.
  - apply Forall_cons in Hl as [Ha Hl]. apply Forall_cons in Hl as [Hb _].
    destruct (quad_arith a b 0 Ha Hb) as (H1 & H2 & H3 & _ & E1 & E2 & _); [lia|].
    change (0 / 64) with 0 in *. rewrite N.add_0_r in *.
    simpl.
    destruct (sextet_roundtrip _ H1) as [-> _].
    destruct (sextet_roundtrip _ H2) as [-> _].
    destruct (sextet_roundtrip _ H3) as [-> ->].
    by rewrite E1, E2.
  - apply Forall_cons in Hl as [Ha Hl]. apply Forall_cons in Hl as [Hb Hl].
    apply Forall_cons in Hl as [Hc Hl].
    destruct (quad_arith a b c Ha Hb Hc) as (H1 & H2 & H3 & H4 & E1 & E2 & E3).
    simpl.
    destruct (sextet_roundtrip _ H1) as [-> _].
    destruct (sextet_roundtrip _ H2) as [-> _].
    destruct (sextet_roundtrip _ H3) as [-> ->].
    destruct (sextet_roundtrip _ H4) as [-> ->].
    by rewrite E1, E2, E3, (IH Hl).
Qed.

Lemma bytes_of_string_bounded (s : string) :
  Forall (fun b => b < 256) (Sha256.bytes_of_string s).
Proof.
  unfold Sha256.bytes_of_string. apply Forall_fmap, Forall_forall.
  intros c _. apply N_ascii_bounded.
Qed.

Lemma string_of_bytes_of_string (s : string) :
  Sha256.string_of_bytes (Sha256.bytes_of_string s) = s.
Proof.
  unfold Sha256.string_of_bytes, Sha256.bytes_of_string.
  rewrite <- (string_of_list_ascii_of_string s) at 2. f_equal.
  induction (list_ascii_of_string s) as [|c l IH]; [reflexivity|].
  simpl. by rewrite ascii_N_embedding, IH.
Qed.

Lemma derive_fernet_key_decodes (s : string) :
  Base64.urlsafe_decode_bytes (Config.derive_fernet_key s)
  = Sha256.bytes_of_string (Sha256.digest (Config.encode s)).
Proof. apply urlsafe_roundtrip, bytes_of_string_bounded. Qed.

Lemma derive_fernet_key_eq_iff (s1 s2 : string) :
  Config.derive_fernet_key s1 = Config.derive_fernet_key s2
  <-> Sha256.digest (Config.encode s1) = Sha256.digest (Config.encode s2).
Proof.
  split; [|unfold Config.derive_fernet_key; by intros ->].
  intros Hkey.
  rewrite <- (string_of_bytes_of_string (Sha256.digest (Config.encode s1))).
  rewrite <- (string_of_bytes_of_string (Sha256.digest (Config.encode s2))).
  by rewrite <- !derive_fernet_key_decodes, Hkey.
Qed.

End KeyDerivation.

Section Counting.

Lemma length_bind_uniform {A B} (f : A -> list B) (l : list A) (k : nat) :
  (forall a, length (f a) = k) -> length (l ≫= f) = (length l * k)%nat.
Proof.
  intros Hf. induction l as [|a l IH]; [reflexivity|].
  change ((a :: l) ≫= f) with ((f a ++ (l ≫= f))%list).
  rewrite length_app, Hf, IH. simpl. lia.
Qed.

Lemma length_words {A} (alphabet : list A) (n : nat) :
  length (Spec.words alphabet n) = (length alphabet ^ n)%nat.
Proof.
  induction n as [|n IH]; [reflexivity|].
  change (Spec.words alphabet (S n))
    with (alphabet ≫= fun a => cons a <$> Spec.words alphabet n).
  rewrite (length_bind_uniform _ _ (length alphabet ^ n)).
  - by rewrite Nat.pow_succ_r'.
  - intros a. by rewrite length_fmap.
Qed.

Lemma words_complete {A} (alphabet : list A) (w : list A) :
  Forall (fun a => a ∈ alphabet) w -> w ∈ Spec.words alphabet (length w).
Proof.
  induction 1 as [|a w Ha Hw IH]; [apply list_elem_of_here|].
  change (Spec.words alphabet (length (a :: w)))
    with (alphabet ≫= fun a => cons a <$> Spec.words alphabet (length w)).
  apply list_elem_of_bind. exists a. split; [|done].
  by apply list_elem_of_fmap_2.
Qed.

Lemma NoDup_words {A} (alphabet : list A) (n : nat) :
  NoDup alphabet -> NoDup (Spec.words alphabet n).
Proof.
  intros Hal. induction n as [|n IH]; [apply NoDup_singleton|].
  change (Spec.words alphabet (S n))
    with (alphabet ≫= fun a => cons a <$> Spec.words alphabet n).
  apply NoDup_bind; [| |done].
  - intros a1 a2 w _ _ (w1 & -> & _)%list_elem_of_fmap (w2 & [= -> _] & _)%list_elem_of_fmap.
    reflexivity.
  - intros a _. apply NoDup_fmap_2; [|done]. by intros w1 w2 [= ->].
Qed.

Lemma all_ascii_complete (c : ascii) : c ∈ Spec.all_ascii.
Proof.
  unfold Spec.all_ascii. rewrite <- (ascii_nat_embedding c).
  apply list_elem_of_fmap_2, list_elem_of_In, in_seq.
  pose proof (nat_ascii_bounded c). lia.
Qed.

Lemma strings_of_length_complete (s : string) :
  s ∈ Spec.strings_of_length (String.length s).
Proof.
  unfold Spec.strings_of_length.
  rewrite <- (string_of_list_ascii_of_string s) at 1.
  apply list_elem_of_fmap_2.
  rewrite <- length_list_ascii_of_string.
  apply words_complete, Forall_forall. intros c _. apply all_ascii_complete.
Qed.

Lemma length_strings_of_length (n : nat) :
  length (Spec.strings_of_length n) = ((2 ^ 8) ^ n)%nat.
Proof. unfold Spec.strings_of_length. by rewrite length_fmap, length_words. Qed.

Lemma NoDup_binary_secrets (n : nat) : NoDup (Spec.binary_secrets n).
Proof.
  unfold Spec.binary_secrets. apply NoDup_fmap_2.
  - intros l1 l2 Heq.
    by rewrite <- (list_ascii_of_string_of_list_ascii l1), Heq,
      list_ascii_of_string_of_list_ascii.
  - apply NoDup_words. apply NoDup_cons. split; [|apply NoDup_singleton].
    intros Hin. apply list_elem_of_singleton in Hin. discriminate Hin.
Qed.

Lemma length_binary_secrets (n : nat) : length (Spec.binary_secrets n) = (2 ^ n)%nat.
Proof. unfold Spec.binary_secrets. by rewrite length_fmap, length_words. Qed.

Lemma collision_or_NoDup (f : string -> string) (l : list string) :
  NoDup l ->
  NoDup (f <$> l)
  \/ exists s1 s2, s1 ∈ l /\ s2 ∈ l /\ s1 ≠ s2 /\ f s1 = f s2.
Proof.
  induction 1 as [|s l Hs Hl IH]; [left; apply NoDup_nil_2|].
  destruct IH as [Hnodup|(s1 & s2 & H1 & H2 & Hne & Heq)].
  - destruct (decide (f s ∈ f <$> l)) as [Hin|Hnin].
    + right. apply list_elem_of_fmap in Hin as (s' & Heq & Hin).
      exists s, s'. split; [apply list_elem_of_here|].
      split; [by apply list_elem_of_further|]. split; [|done].
      intros ->. done.
    + left. simpl. by apply NoDup_cons.
  - right. exists s1, s2.
    split; [by apply list_elem_of_further|].
    split; [by apply list_elem_of_further|]. done.
Qed.

(** A function from the strings into the strings of length [n] identifies
    two of the [2 ^ (8 n + 1)] binary secrets of length [8 n + 1]. *)
Lemma fixed_length_collision (f : string -> string) (n : nat) :
  (forall s, String.length (f s) = n) ->
  exists s1 s2,
    s1 ∈ Spec.binary_secrets (8 * n + 1) /\ s2 ∈ Spec.binary_secrets (8 * n + 1)
    /\ s1 ≠ s2 /\ f s1 = f s2.
Proof.
  intros Hlen.
  destruct (collision_or_NoDup f _ (NoDup_binary_secrets (8 * n + 1)))
    as [Hnodup|Hcollision]; [exfalso|done].
  assert (f <$> Spec.binary_secrets (8 * n + 1) ⊆+ Spec.strings_of_length n) as Hsub.
  { apply NoDup_submseteq; [done|].
    intros k (s & -> & _)%list_elem_of_fmap.
    rewrite <- (Hlen s). apply strings_of_length_complete. }
  apply submseteq_length in Hsub.
  rewrite length_fmap, length_binary_secrets, length_strings_of_length in Hsub.
  rewrite <- Nat.pow_mul_r in Hsub.
  apply Nat.pow_le_mono_r_iff in Hsub; lia.
Qed.

Lemma fixed_length_not_injective (f : string -> string) (n : nat) :
  (forall s, String.length (f s) = n) ->
  ~ (forall s1 s2, s1 ≠ s2 -> f s1 ≠ f s2).
Proof.
  intros Hlen Hinj.
  destruct (fixed_length_collision f n Hlen) as (s1 & s2 & _ & _ & Hne & Heq).
  exact (Hinj s1 s2 Hne Heq).
Qed.

End Counting.

Section DerivedKey.

(** Known answers: the model computes SHA-256 and the URL-safe alphabet. *)
Example sha256_abc :
  Sha256.bytes_of_string (Sha256.digest "abc")
  = [0xba; 0x78; 0x16; 0xbf; 0x8f; 0x01; 0xcf; 0xea; 0x41; 0x41; 0x40; 0xde;
     0x5d; 0xae; 0x22; 0x23; 0xb0; 0x03; 0x61; 0xa3; 0x96; 0x17; 0x7a; 0x9c;
     0xb4; 0x10; 0xff; 0x61; 0xf2; 0x00; 0x15; 0xad]%N.
Proof. vm_compute. reflexivity. Qed.

Example derive_fernet_key_of_secret :
  Config.derive_fernet_key "secret" = "K7gNU3sdo-OL0wNhqoVWhr3g6s1xYv72ol_pe_Unols=".
Proof. vm_compute. reflexivity. Qed.

Example derive_fernet_key_of_empty :
  Config.derive_fernet_key "" = "47DEQpj8HBSa-_TImW-5JCeuQeRkm5NMpJWZG3hSuFU=".
Proof. vm_compute. reflexivity. Qed.

(** The derived key is what the Fernet constructor requires: URL-safe
    base64 that decodes to 32 bytes. *)
Lemma derive_fernet_key_is_a_fernet_key (s : string) :
  length (Base64.urlsafe_decode_bytes (Config.derive_fernet_key s)) = 32%nat.
Proof.
  by rewrite derive_fernet_key_decodes, length_bytes_of_string, length_digest.
Qed.

(** C8, as the code has it: the key is the URL-safe base64 encoding of the
    SHA-256 digest of the secret; the digest has 32 bytes and the key 44
    characters, whatever the secret; two secrets derive the same key
    exactly when their digests are equal; and, the key length being fixed,
    two distinct secrets with the same key exist. *)
Theorem derive_fernet_key_encodes_digest :
  (forall s : string,
     Config.derive_fernet_key s
     = Base64.urlsafe_b64encode (Sha256.digest (Config.encode s))
     /\ String.length (Sha256.digest (Config.encode s)) = 32%nat
     /\ String.length (Config.derive_fernet_key s) = 44%nat)
  /\ (forall s1 s2 : string,
        Config.derive_fernet_key s1 = Config.derive_fernet_key s2
        <-> Sha256.digest (Config.encode s1) = Sha256.digest (Config.encode s2))
  /\ (exists s1 s2 : string,
        s1 ≠ s2 /\ Config.derive_fernet_key s1 = Config.derive_fernet_key s2).
Proof.
  split; [|split].
  - intros s. split; [reflexivity|].
    split; [apply length_digest | apply length_derive_fernet_key].
  - apply derive_fernet_key_eq_iff.
  - destruct (fixed_length_collision Config.derive_fernet_key 44 length_derive_fernet_key)
      as (s1 & s2 & _ & _ & Hne & Heq).
    by exists s1, s2.
Qed.

(** C8, as stated, fails: keys have 44 characters, so the derivation is not
    injective; among the binary secrets of 353 characters two derive the
    same key. *)
Lemma derive_fernet_key_is_not_injective :
  ~ (forall s1 s2 : string,
       s1 ≠ s2 -> Config.derive_fernet_key s1 ≠ Config.derive_fernet_key s2).
Proof.
  exact (fixed_length_not_injective Config.derive_fernet_key 44 length_derive_fernet_key).
Qed.

End DerivedKey.

(** * Further properties of the note service *)

Section NoteStore.

Import World NoteService.

Ltac run_service :=
  unfold store_note, get_all_notes, read_notes_content, delete_all_notes,
    delete_notes_containing, failed, try_except, exists_, read, write, append,
    mbind, mret, io_bind, io_ret, bind, ret; simpl.

Lemma readlines_nil (s : string) : readlines s = [] -> s = "".
Proof.
  destruct s as [|c s]; [done|]. simpl.
  destruct (Ascii.eqb c newline); [done|]. by destruct (readlines s).
Qed.

Lemma lined_first_nonempty (line : string) (lines : list string) :
  Spec.lined (line :: lines) = true -> line ≠ "".
Proof.
  intros Hl. apply lined_cons in Hl as [[Hterm _]|(_ & _ & Hne)]; [|done].
  by apply terminated_nonempty.
Qed.

Lemma complete_ends (s : string) : Spec.complete s = Spec.ends_with_newline s.
Proof.
  unfold Spec.complete. induction s as [|c s IH]; [reflexivity|].
  pose proof (readlines_lined s) as Hlined.
  simpl. destruct (Ascii.eqb c newline) eqn:Hc.
  - simpl. rewrite Hc, IH. by destruct s.
  - destruct (readlines s) as [|line lines] eqn:Hlines.
    + apply readlines_nil in Hlines as ->. simpl. by rewrite Hc.
    + change (forallb Spec.terminated (String c line :: lines))
        with (Spec.terminated (String c line) && forallb Spec.terminated lines).
      rewrite terminated_cons by by apply (lined_first_nonempty _ lines).
      rewrite Hc. simpl.
      change (Spec.terminated line && forallb Spec.terminated lines)
        with (forallb Spec.terminated (line :: lines)).
      rewrite IH. destruct s; [discriminate Hlines | reflexivity].
Qed.

Lemma ends_with_newline_app (s text : string) :
  Spec.ends_with_newline (s ++ text ++ nl) = true.
Proof.
  assert (forall x, Spec.ends_with_newline (x ++ nl) = true) as Hnl.
  { induction x as [|c x IH]; [reflexivity|].
    change (String c x ++ nl) with (String c (x ++ nl)).
    simpl. destruct (x ++ nl) eqn:Hx; [by destruct x | exact IH]. }
  induction s as [|c s IH]; [apply Hnl|].
  change (String c s ++ text ++ nl) with (String c (s ++ text ++ nl)).
  simpl. destruct (s ++ text ++ nl) eqn:Hs; [|exact IH].
  destruct s; [by destruct text | discriminate Hs].
Qed.

Lemma readlines_app (a b : string) :
  Spec.complete a = true -> readlines (a ++ b) = (readlines a ++ readlines b)%list.
Proof.
  unfold Spec.complete. intros Ha.
  rewrite <- (joined_readlines a) at 1.
  induction (readlines a) as [|line lines IH]; [reflexivity|].
  change (forallb Spec.terminated (line :: lines))
    with (Spec.terminated line && forallb Spec.terminated lines) in Ha.
  apply andb_true_iff in Ha as [Hline Hlines].
  rewrite joined_cons.
  assert ((line ++ joined lines) ++ b = line ++ (joined lines ++ b)) as ->.
  { clear. induction line as [|c line IH]; [reflexivity|].
    change (String c ((line ++ joined lines) ++ b) = String c (line ++ joined lines ++ b)).
    by rewrite IH. }
  by rewrite (readlines_terminated _ _ Hline), (IH Hlines).
Qed.

Lemma terminated_app_nl (x : string) :
  Spec.no_newline x = true -> Spec.terminated (x ++ nl) = true.
Proof.
  induction x as [|c x IH]; [reflexivity|]. intros Hno.
  simpl in Hno. apply andb_true_iff in Hno as [Hc Hno].
  change (String c x ++ nl) with (String c (x ++ nl)).
  rewrite terminated_cons by by destruct x.
  by rewrite Hc, IH.
Qed.

Lemma readlines_line (x : string) :
  Spec.no_newline x = true -> readlines (x ++ nl) = [x ++ nl].
Proof.
  intros Hno. rewrite <- (append_empty (x ++ nl)) at 1.
  by rewrite (readlines_terminated _ _ (terminated_app_nl x Hno)).
Qed.

Lemma universal_newlines_cons (c : ascii) (rest : string) :
  Text.universal_newlines (String c rest)
  = if Ascii.eqb c Text.carriage_return then
      match rest with
      | String d _ =>
          if Ascii.eqb d Text.line_feed then Text.universal_newlines rest
          else String Text.line_feed (Text.universal_newlines rest)
      | EmptyString => String Text.line_feed EmptyString
      end
    else String c (Text.universal_newlines rest).
Proof. reflexivity. Qed.

Lemma universal_newlines_free (s : string) :
  Spec.no_carriage_return s = true -> Text.universal_newlines s = s.
Proof.
  induction s as [|c s IH]; [done|]. intros Hfree.
  simpl in Hfree. apply andb_true_iff in Hfree as [Hc Hfree].
  apply negb_true_iff in Hc.
  by rewrite universal_newlines_cons, Hc, (IH Hfree).
Qed.

Lemma no_carriage_return_line (note : string) :
  Spec.no_carriage_return note = true -> Spec.no_carriage_return (note ++ nl) = true.
Proof.
  induction note as [|c note IH]; [done|]. intros Hfree.
  simpl in Hfree. apply andb_true_iff in Hfree as [Hc Hfree].
  change (Spec.no_carriage_return (String c (note ++ nl)) = true).
  simpl. by rewrite Hc, (IH Hfree).
Qed.

Lemma universal_newlines_line (note : string) :
  exists text, Text.universal_newlines (note ++ nl) = text ++ nl.
Proof.
  induction note as [|c note [text IH]]; [by exists ""|].
  change (String c note ++ nl) with (String c (note ++ nl)).
  rewrite universal_newlines_cons.
  destruct (Ascii.eqb c Text.carriage_return).
  - destruct (note ++ nl) as [|d rest] eqn:Hrest; [by destruct note|].
    destruct (Ascii.eqb d Text.line_feed).
    + by exists text.
    + exists (String Text.line_feed text). by rewrite IH.
  - exists (String c text). by rewrite IH.
Qed.

Lemma store_note_run (note : string) (w : World.t) :
  let content := Spec.content_of w ++ Text.universal_newlines (note ++ nl) in
  store_note note w
  = ({| notes := Some content; journal := (journal w ++ [Wrote content])%list |},
     Py.Return (true, "Note stored successfully.")).
Proof. reflexivity. Qed.

Lemma store_note_line_run (note : string) (w : World.t) :
  Spec.no_carriage_return note = true ->
  store_note note w
  = ({| notes := Some (Spec.content_of w ++ note ++ nl);
        journal := (journal w ++ [Wrote (Spec.content_of w ++ note ++ nl)])%list |},
     Py.Return (true, "Note stored successfully.")).
Proof.
  intros Hfree. rewrite store_note_run. cbv zeta.
  by rewrite (universal_newlines_free _ (no_carriage_return_line _ Hfree)).
Qed.

Lemma read_notes_content_run (w : World.t) :
  read_notes_content w = (w, Returned (Spec.content_of w)).
Proof.
  destruct w as [[content|] events]; reflexivity.
Qed.



Lemma append_assoc (a b c : string) : (a ++ b) ++ c = a ++ b ++ c.
Proof.
  induction a as [|x a IH]; [reflexivity|].
  change (String x ((a ++ b) ++ c) = String x (a ++ b ++ c)). by rewrite IH.
Qed.

Lemma forallb_filter {A} (p q : A -> bool) (l : list A) :
  forallb p l = true -> forallb p (List.filter q l) = true.
Proof.
  induction l as [|x l IH]; [done|]. simpl.
  intros [Hx Hl]%andb_true_iff. destruct (q x); simpl; [|by apply IH].
  by rewrite Hx, IH.
Qed.

Lemma delete_notes_containing_run (contained_text content : string) (events : list event) :
  let lines := readlines content in
  let kept := List.filter (fun line => negb (contains contained_text line)) lines in
  exists response,
    delete_notes_containing contained_text {| notes := Some content; journal := events |}
    = ({| notes := Some (joined kept);
          journal := (events ++ [Wrote (joined kept)])%list |}, Py.Return response)
    /\ response !! "status" = Some (Py.VStr "success")
    /\ response !! "deleted"
       = Some (Py.VInt (Z.of_nat (length lines) - Z.of_nat (length kept))).
Proof. intros lines kept. eexists. split; [reflexivity|]. split; reflexivity. Qed.

Lemma complete_kept (text content : string) :
  Spec.complete content = true ->
  Spec.complete
    (joined (List.filter (fun line => negb (contains text line)) (readlines content)))
  = true.
Proof.
  unfold Spec.complete. intros Hc.
  rewrite readlines_joined by apply lined_filter, readlines_lined.
  by apply forallb_filter.
Qed.

(** X2: the service keeps the notes file line-complete.  After
    [store_note] and after [delete_all_notes] every line of the file ends
    with a line break, whatever the file was; [delete_notes_containing]
    preserves that state. *)
Theorem service_keeps_lines_complete (note text : string) (w : World.t) :
  Spec.complete (Spec.content_of (fst (store_note note w))) = true
  /\ Spec.complete (Spec.content_of (fst (delete_all_notes w))) = true
  /\ (Spec.complete (Spec.content_of w) = true ->
      Spec.complete (Spec.content_of (fst (delete_notes_containing text w))) = true).
Proof.
  split; [|split].
  - rewrite store_note_run. unfold Spec.content_of at 1. simpl.
    destruct (universal_newlines_line note) as [line ->].
    rewrite complete_ends. apply ends_with_newline_app.
  - destruct w as [[content|] events]; reflexivity.
  - destruct w as [[content|] events]; [|done].
    destruct (delete_notes_containing_run text content events) as (r & -> & _).
    apply complete_kept.
Qed.

Lemma service_keeps_lines_complete_witness :
  Spec.complete (Spec.content_of Spec.sample_world) = true
  /\ Spec.complete
       (Spec.content_of (fst (delete_notes_containing "urgent" Spec.sample_world))) = true.
Proof.
  assert (Spec.complete (Spec.content_of Spec.sample_world) = true) as Hc by reflexivity.
  split; [exact Hc|].
  exact (proj2 (proj2 (service_keeps_lines_complete "" "urgent" Spec.sample_world)) Hc).
Defined.

Lemma readlines_after_store (note content : string) :
  Spec.complete content = true -> Spec.no_newline note = true ->
  readlines (content ++ note ++ nl) = (readlines content ++ [(note ++ nl)%string])%list.
Proof.
  intros Hc Hno. by rewrite (readlines_app _ _ Hc), (readlines_line _ Hno).
Qed.



Lemma unterminated_last (lines : list string) :
  Spec.lined lines = true -> forallb Spec.terminated lines = false ->
  exists init last,
    lines = (init ++ [last])%list /\ forallb Spec.terminated init = true
    /\ Spec.no_newline last = true /\ last ≠ "".
Proof.
  induction lines as [|line lines IH]; [done|]. intros Hl Hinc.
  apply lined_cons in Hl as [[Hterm Hl]|(-> & Hno & Hne)].
  - simpl in Hinc. rewrite Hterm in Hinc. simpl in Hinc.
    destruct (IH Hl Hinc) as (init & last & -> & Hinit & Hno & Hne).
    exists (line :: init), last. simpl. by rewrite Hterm, Hinit.
  - by exists [], line.
Qed.

Lemma no_newline_app (a b : string) :
  Spec.no_newline a = true -> Spec.no_newline b = true -> Spec.no_newline (a ++ b) = true.
Proof.
  induction a as [|c a IH]; [done|]. simpl. intros [Hc Ha]%andb_true_iff Hb.
  change (Spec.no_newline (String c (a ++ b)) = true). simpl. by rewrite Hc, IH.
Qed.

Lemma joined_app (init : list string) (last : string) :
  joined (init ++ [last]) = joined init ++ last.
Proof.
  induction init as [|x init IH]; [reflexivity|].
  change (joined (x :: (init ++ [last])%list) = joined (x :: init) ++ last).
  by rewrite !joined_cons, IH, append_assoc.
Qed.

(** X4: when the last line of the file lacks its line break, a stored note
    without line feed and carriage return does not become a line of its
    own: it is glued to that last line, and the number of lines stays the
    same. *)
Theorem store_note_joins_unterminated_line (note : string) (w : World.t) :
  Spec.complete (Spec.content_of w) = false ->
  Spec.no_newline note = true ->
  Spec.no_carriage_return note = true ->
  exists init last,
    readlines (Spec.content_of w) = (init ++ [last])%list
    /\ readlines (Spec.content_of (fst (store_note note w)))
       = (init ++ [(last ++ note ++ nl)%string])%list.
Proof.
  intros Hinc Hno Hfree. rewrite (store_note_line_run _ _ Hfree).
  unfold Spec.content_of at 2. simpl.
  set (content := Spec.content_of w) in *.
  destruct (unterminated_last (readlines content) (readlines_lined content) Hinc)
    as (init & last & Hlines & Hinit & Hlast & Hne).
  exists init, last. split; [done|].
  assert (Spec.lined init = true) as Hlined.
  { clear -Hinit. induction init as [|x init IH]; [done|].
    simpl in Hinit. apply andb_true_iff in Hinit as [Hx Hinit].
    apply lined_cons. left. by split; [|apply IH]. }
  rewrite <- (joined_readlines content), Hlines, joined_app, append_assoc.
  rewrite readlines_app.
  - rewrite (readlines_joined _ Hlined). f_equal.
    rewrite <- append_assoc. apply readlines_line. by apply no_newline_app.
  - unfold Spec.complete. by rewrite (readlines_joined _ Hlined).
Qed.

Lemma store_note_joins_unterminated_line_witness :
  let w := {| notes := Some "buy milk"; journal := [] |} in
  Spec.complete (Spec.content_of w) = false
  /\ Spec.no_newline "pay rent" = true
  /\ Spec.no_carriage_return "pay rent" = true
  /\ exists init last,
       readlines (Spec.content_of w) = (init ++ [last])%list
       /\ readlines (Spec.content_of (fst (store_note "pay rent" w)))
          = (init ++ [(last ++ "pay rent" ++ nl)%string])%list.
Proof.
  split; [reflexivity|]. split; [reflexivity|]. split; [reflexivity|].
  exact (store_note_joins_unterminated_line "pay rent"
           {| notes := Some "buy milk"; journal := [] |} eq_refl eq_refl eq_refl).
Defined.

Lemma prefix_app (n x : string) : String.prefix n (n ++ x) = true.
Proof.
  induction n as [|c n IH]; [by destruct x|].
  change (String c n ++ x) with (String c (n ++ x)). simpl.
  destruct (ascii_dec c c); [exact IH | done].
Qed.

Lemma prefix_inv (n h : string) : String.prefix n h = true -> exists q, h = n ++ q.
Proof.
  revert h. induction n as [|c n IH]; intros h Hp; [by exists h|].
  destruct h as [|d h]; [discriminate Hp|]. simpl in Hp.
  destruct (ascii_dec c d) as [->|]; [|discriminate Hp].
  destruct (IH h Hp) as [q ->]. by exists q.
Qed.

Lemma contains_unfold (n h : string) :
  contains n h
  = String.prefix n h
    || match h with
       | EmptyString => false
       | String _ rest => contains n rest
       end.
Proof. by destruct h. Qed.

Lemma contains_app (p n q : string) : contains n (p ++ n ++ q) = true.
Proof.
  induction p as [|c p IH].
  - change ("" ++ n ++ q) with (n ++ q).
    by rewrite contains_unfold, prefix_app.
  - change (String c p ++ n ++ q) with (String c (p ++ n ++ q)).
    rewrite contains_unfold, IH. apply orb_true_r.
Qed.

Lemma contains_inv (n h : string) :
  contains n h = true -> exists p q, h = p ++ n ++ q.
Proof.
  induction h as [|c h IH]; rewrite contains_unfold; intros Hc.
  - apply orb_true_iff in Hc as [Hp|]; [|done].
    destruct (prefix_inv _ _ Hp) as [q ->]. by exists "", q.
  - apply orb_true_iff in Hc as [Hp|Hc].
    + destruct (prefix_inv _ _ Hp) as [q ->]. by exists "", q.
    + destruct (IH Hc) as (p & q & ->). by exists (String c p), q.
Qed.

Lemma filter_all {A} (p : A -> bool) (l : list A) :
  Forall (fun x => p x = true) l -> List.filter p l = l.
Proof.
  induction 1 as [|x l Hx Hl IH]; [done|]. simpl. by rewrite Hx, IH.
Qed.

Lemma filter_none {A} (p : A -> bool) (l : list A) :
  Forall (fun x => p x = false) l -> List.filter p l = [].
Proof.
  induction 1 as [|x l Hx Hl IH]; [done|]. simpl. by rewrite Hx.
Qed.

Lemma delete_note_accepted (contained_text : string) (ctx : Routes.Context) (w : World.t) :
  Routes.front_end ctx (Spec.prompt_containing contained_text)
  = Py.Return (AcceptedElicitation true) ->
  Routes.delete_note contained_text ctx w
  = delete_notes_containing contained_text
      (Spec.asked ctx (Spec.prompt_containing contained_text) w).
Proof.
  intros Hyes. unfold Routes.delete_note, Routes.elicit, Spec.asked, mbind, io_bind, bind.
  change ("Are you sure you want to delete all notes containing: '"
          ++ contained_text ++ "'?") with (Spec.prompt_containing contained_text).
  by rewrite Hyes.
Qed.

Lemma delete_all_notes_accepted (ctx : Routes.Context) (w : World.t) :
  Routes.front_end ctx Spec.prompt_all = Py.Return (AcceptedElicitation true) ->
  Routes.delete_all_notes ctx w = delete_all_notes (Spec.asked ctx Spec.prompt_all w).
Proof.
  intros Hyes. unfold Routes.delete_all_notes, Routes.elicit, Spec.asked, mbind, io_bind, bind.
  change (Routes.front_end ctx "Are you sure you want to delete ALL notes?")
    with (Routes.front_end ctx Spec.prompt_all).
  by rewrite Hyes.
Qed.

Lemma delete_after_store (note content : string) (events : list event) :
  Spec.complete content = true ->
  Spec.no_newline note = true ->
  Forall (fun line => contains note line = false) (readlines content) ->
  let run := delete_notes_containing note
               {| notes := Some (content ++ note ++ nl); journal := events |} in
  Spec.content_of (fst run) = content
  /\ Spec.status run = Some (Py.VStr "success")
  /\ Spec.deleted run = Some (Py.VInt 1).
Proof.
  intros Hc Hno Hfree run. subst run.
  destruct (delete_notes_containing_run note (content ++ note ++ nl) events)
    as (r & -> & Hstatus & Hdeleted).
  unfold Spec.status, Spec.deleted, Spec.content_of. simpl.
  rewrite Hstatus, Hdeleted, (readlines_after_store _ _ Hc Hno).
  rewrite List.filter_app. simpl.
  assert (contains note (note ++ nl) = true) as ->.
  { rewrite <- (contains_app "" note nl). reflexivity. }
  simpl. rewrite app_nil_r.
  rewrite filter_all.
  - rewrite joined_readlines. repeat split. f_equal. f_equal.
    rewrite length_app. simpl. lia.
  - eapply Forall_impl; [exact Hfree|]. simpl. by intros line ->.
Qed.

(** X5: storing a note and then deleting the notes that contain it, the
    deletion being confirmed, gives the file back as it was: provided the
    file is line-complete, the note has no line break (neither a line feed
    nor a carriage return) and no line already contains the note, exactly
    one line is deleted and the content is the former content. *)
Theorem store_then_delete_restores (note : string) (ctx : Routes.Context) (w : World.t) :
  Spec.complete (Spec.content_of w) = true ->
  Spec.no_newline note = true ->
  Spec.no_carriage_return note = true ->
  Forall (fun line => contains note line = false) (readlines (Spec.content_of w)) ->
  Routes.front_end ctx (Spec.prompt_containing note) = Py.Return (AcceptedElicitation true) ->
  let stored := fst (Routes.store_note note w) in
  let run := Routes.delete_note note ctx stored in
  Spec.content_of (fst run) = Spec.content_of w
  /\ Spec.status run = Some (Py.VStr "success")
  /\ Spec.deleted run = Some (Py.VInt 1).
Proof.
  intros Hc Hno Hcr Hfree Hyes stored run. subst run stored.
  rewrite (delete_note_accepted _ _ _ Hyes).
  unfold Routes.store_note. rewrite (store_note_line_run _ _ Hcr). unfold Spec.asked.
  cbn [fst notes journal].
  by apply delete_after_store.
Qed.

Lemma store_then_delete_restores_witness :
  let ctx := Spec.answering (AcceptedElicitation true) in
  Spec.complete (Spec.content_of Spec.sample_world) = true
  /\ Spec.content_of
       (fst (Routes.delete_note "pay rent" ctx
               (fst (Routes.store_note "pay rent" Spec.sample_world))))
     = Spec.sample_notes.
Proof.
  split; [reflexivity|].
  refine (proj1 (store_then_delete_restores "pay rent"
                   (Spec.answering (AcceptedElicitation true))
                   Spec.sample_world eq_refl eq_refl eq_refl _ eq_refl)).
  repeat constructor.
Defined.

(** X6: [delete_notes_containing] is idempotent.  After one run no line of
    the file contains the text, and a second run deletes nothing and
    writes back the same content. *)
Theorem delete_notes_containing_twice (contained_text content : string) (w : World.t) :
  notes w = Some content ->
  let once := fst (delete_notes_containing contained_text w) in
  let again := delete_notes_containing contained_text once in
  Forall (fun line => contains contained_text line = false)
    (readlines (Spec.content_of once))
  /\ notes (fst again) = notes once
  /\ Spec.deleted again = Some (Py.VInt 0).
Proof.
  intros Hnotes once again. subst again once.
  destruct w as [file events]. simpl in Hnotes. subst file.
  destruct (delete_notes_containing_run contained_text content events)
    as (r & -> & _). simpl.
  set (kept := List.filter (fun line => negb (contains contained_text line))
                 (readlines content)).
  assert (readlines (joined kept) = kept) as Hkept
    by (apply readlines_joined, lined_filter, readlines_lined).
  assert (Forall (fun line => contains contained_text line = false) kept) as Hfree.
  { apply Forall_forall. intros line Hin.
    apply list_elem_of_In, filter_In in Hin as [_ Hline].
    by apply negb_true_iff in Hline. }
  destruct (delete_notes_containing_run contained_text (joined kept)
              (events ++ [Wrote (joined kept)])%list) as (r2 & -> & _ & Hdeleted).
  unfold Spec.deleted, Spec.content_of. simpl. rewrite Hdeleted, Hkept.
  rewrite filter_all.
  - repeat split; [done|]. f_equal. f_equal. lia.
  - eapply Forall_impl; [exact Hfree|]. simpl. by intros line ->.
Qed.

Lemma delete_notes_containing_twice_witness :
  notes Spec.sample_world = Some Spec.sample_notes
  /\ Spec.deleted
       (delete_notes_containing "urgent"
          (fst (delete_notes_containing "urgent" Spec.sample_world)))
     = Some (Py.VInt 0).
Proof.
  split; [reflexivity|].
  exact (proj2 (proj2 (delete_notes_containing_twice "urgent" Spec.sample_notes
                         Spec.sample_world eq_refl))).
Defined.

Lemma delete_nothing (contained_text content : string) (events : list event) :
  Forall (fun line => contains contained_text line = false) (readlines content) ->
  let run := delete_notes_containing contained_text
               {| notes := Some content; journal := events |} in
  notes (fst run) = Some content /\ Spec.deleted run = Some (Py.VInt 0).
Proof.
  intros Hfree run. subst run.
  destruct (delete_notes_containing_run contained_text content events)
    as (r & -> & _ & Hdeleted).
  unfold Spec.deleted. simpl. rewrite Hdeleted.
  rewrite filter_all.
  - rewrite joined_readlines. split; [done|]. f_equal. f_equal. lia.
  - eapply Forall_impl; [exact Hfree|]. simpl. by intros line ->.
Qed.

(** X7: when no line contains the text, [delete_notes_containing] writes
    the file back unchanged, character for character, and reports zero
    deletions. *)
Theorem delete_without_match_keeps_file (contained_text content : string) (w : World.t) :
  notes w = Some content ->
  Forall (fun line => contains contained_text line = false) (readlines content) ->
  notes (fst (delete_notes_containing contained_text w)) = Some content
  /\ Spec.deleted (delete_notes_containing contained_text w) = Some (Py.VInt 0).
Proof.
  intros Hnotes Hfree. destruct w as [file events]. simpl in Hnotes. subst file.
  by apply delete_nothing.
Qed.

Lemma delete_without_match_keeps_file_witness :
  notes Spec.sample_world = Some Spec.sample_notes
  /\ notes (fst (delete_notes_containing "rent" Spec.sample_world))
     = Some Spec.sample_notes.
Proof.
  split; [reflexivity|].
  refine (proj1 (delete_without_match_keeps_file "rent" Spec.sample_notes
                   Spec.sample_world eq_refl _)).
  repeat constructor.
Defined.

Lemma terminated_newline_last (x p q : string) :
  Spec.terminated x = true -> x = p ++ String newline q -> q = "".
Proof.
  revert p. induction x as [|c x IH]; intros p Hterm Heq; [done|].
  destruct p as [|d p].
  - injection Heq as -> ->. destruct q as [|e q]; [done|].
    rewrite terminated_cons in Hterm by done.
    by rewrite Ascii.eqb_refl in Hterm.
  - injection Heq as -> Hx.
    rewrite terminated_cons in Hterm by (rewrite Hx; by destruct p).
    apply andb_true_iff in Hterm as [_ Hterm]. by apply (IH p).
Qed.

Lemma no_newline_has_none (x p q : string) :
  Spec.no_newline x = true -> x ≠ p ++ String newline q.
Proof.
  revert p. induction x as [|c x IH]; intros p Hno Heq; [by destruct p|].
  simpl in Hno. apply andb_true_iff in Hno as [Hc Hno].
  destruct p as [|d p].
  - injection Heq as -> _. by rewrite Ascii.eqb_refl in Hc.
  - injection Heq as _ Hx. by apply (IH p).
Qed.

Lemma lined_lines (lines : list string) :
  Spec.lined lines = true ->
  Forall (fun x => Spec.terminated x = true \/ Spec.no_newline x = true) lines.
Proof.
  induction lines as [|x lines IH]; [done|]. intros Hl.
  apply lined_cons in Hl as [[Hterm Hl]|(-> & Hno & _)].
  - apply Forall_cons. split; [by left | by apply IH].
  - apply Forall_cons. split; [by right | done].
Qed.

Lemma broken_text_in_no_line (a b : string) (lines : list string) :
  b ≠ "" -> Spec.lined lines = true ->
  Forall (fun line => contains (a ++ nl ++ b) line = false) lines.
Proof.
  intros Hb Hl. eapply Forall_impl; [apply (lined_lines _ Hl)|].
  intros line Hline. simpl in Hline.
  destruct (contains (a ++ nl ++ b) line) eqn:Hc; [exfalso|done].
  apply contains_inv in Hc as (p & q & Heq).
  assert (line = (p ++ a) ++ String newline (b ++ q)) as Hsplit.
  { rewrite Heq, !append_assoc. reflexivity. }
  destruct Hline as [Hterm|Hno].
  - apply (terminated_newline_last _ _ _ Hterm) in Hsplit. by destruct b.
  - by apply (no_newline_has_none _ _ _ Hno) in Hsplit.
Qed.

(** X8: a text with a line break inside it (a line break followed by at
    least one more character) is contained in no line, so
    [delete_notes_containing] deletes nothing and leaves the file as it
    is. *)
Theorem delete_text_with_line_break (before after content : string) (w : World.t) :
  notes w = Some content ->
  after ≠ "" ->
  let run := delete_notes_containing (before ++ nl ++ after) w in
  notes (fst run) = Some content /\ Spec.deleted run = Some (Py.VInt 0).
Proof.
  intros Hnotes Hafter run. subst run.
  destruct w as [file events]. simpl in Hnotes. subst file.
  apply delete_nothing, broken_text_in_no_line; [done | apply readlines_lined].
Qed.

Lemma delete_text_with_line_break_witness :
  notes Spec.sample_world = Some Spec.sample_notes
  /\ "urgent" ≠ ""
  /\ Spec.deleted (delete_notes_containing ("buy milk" ++ nl ++ "urgent") Spec.sample_world)
     = Some (Py.VInt 0).
Proof.
  assert ("urgent" ≠ "") as Hne by discriminate.
  split; [reflexivity|]. split; [exact Hne|].
  exact (proj2 (delete_text_with_line_break "buy milk" "urgent" Spec.sample_notes
                  Spec.sample_world eq_refl Hne)).
Defined.

(** X9: the empty text is contained in every line: with it
    [delete_notes_containing] empties the file and reports as many
    deletions as the file had lines. *)
Theorem delete_empty_text_deletes_all (content : string) (w : World.t) :
  notes w = Some content ->
  let run := delete_notes_containing "" w in
  notes (fst run) = Some ""
  /\ Spec.deleted run = Some (Py.VInt (Z.of_nat (length (readlines content)))).
Proof.
  intros Hnotes run. subst run.
  destruct w as [file events]. simpl in Hnotes. subst file.
  destruct (delete_notes_containing_run "" content events) as (r & -> & _ & Hdeleted).
  unfold Spec.deleted. simpl. rewrite Hdeleted.
  rewrite filter_none.
  - split; [done|]. f_equal. f_equal. simpl. lia.
  - apply Forall_forall. intros line _. rewrite contains_unfold. by destruct line.
Qed.

Lemma delete_empty_text_deletes_all_witness :
  notes Spec.sample_world = Some Spec.sample_notes
  /\ notes (fst (delete_notes_containing "" Spec.sample_world)) = Some ""
  /\ Spec.deleted (delete_notes_containing "" Spec.sample_world) = Some (Py.VInt 2).
Proof.
  split; [reflexivity|].
  exact (delete_empty_text_deletes_all Spec.sample_notes Spec.sample_world eq_refl).
Defined.

(** X10: while the notes file does not exist, only [store_note] creates
    it.  Both deletions answer with status "success" (the selective one
    without a [deleted] count), the two readers answer that there is
    nothing, and all four leave the world as it is. *)
Theorem missing_file_is_left_missing (contained_text : string) (w : World.t) :
  notes w = None ->
  (fst (delete_all_notes w) = w
   /\ Spec.status (delete_all_notes w) = Some (Py.VStr "success"))
  /\ (fst (delete_notes_containing contained_text w) = w
      /\ Spec.status (delete_notes_containing contained_text w) = Some (Py.VStr "success")
      /\ Spec.deleted (delete_notes_containing contained_text w) = None)
  /\ get_all_notes w
     = (w, Py.Return "No notes found. The notes file doesn't exist yet.")
  /\ read_notes_content w = (w, Returned "").
Proof.
  intros Hnotes. destruct w as [file events]. simpl in Hnotes. subst file.
  repeat split.
Qed.

Lemma missing_file_is_left_missing_witness :
  let w := {| notes := None; journal := [] |} in
  notes w = None
  /\ get_all_notes w = (w, Py.Return "No notes found. The notes file doesn't exist yet.")
  /\ read_notes_content w = (w, Returned "").
Proof.
  split; [reflexivity|].
  exact (proj2 (proj2 (missing_file_is_left_missing ""
                         {| notes := None; journal := [] |} eq_refl))).
Defined.

(** X11: after a confirmed [delete_all_notes] on an existing file, the
    file is still there and empty: [get_all_notes] answers that the notes
    file is empty, [read_notes_content] returns the empty text, and a
    second confirmed [delete_all_notes] succeeds again. *)
Theorem delete_all_then_read (content : string) (ctx : Routes.Context) (w : World.t) :
  notes w = Some content ->
  Routes.front_end ctx Spec.prompt_all = Py.Return (AcceptedElicitation true) ->
  let run := Routes.delete_all_notes ctx w in
  Spec.status run = Some (Py.VStr "success")
  /\ notes (fst run) = Some ""
  /\ snd (Routes.get_all_notes (fst run))
     = Py.Return "No notes found. The notes file is empty."
  /\ snd (read_notes_content (fst run)) = Returned ""
  /\ Spec.status (Routes.delete_all_notes ctx (fst run)) = Some (Py.VStr "success")
  /\ notes (fst (Routes.delete_all_notes ctx (fst run))) = Some "".
Proof.
  intros Hnotes Hyes run. subst run.
  rewrite !(delete_all_notes_accepted _ _ Hyes).
  destruct w as [file events]. simpl in Hnotes. subst file.
  repeat split.
Qed.

Lemma delete_all_then_read_witness :
  let ctx := Spec.answering (AcceptedElicitation true) in
  notes Spec.sample_world = Some Spec.sample_notes
  /\ snd (Routes.get_all_notes (fst (Routes.delete_all_notes ctx Spec.sample_world)))
     = Py.Return "No notes found. The notes file is empty.".
Proof.
  split; [reflexivity|].
  exact (proj1 (proj2 (proj2 (delete_all_then_read Spec.sample_notes
                                (Spec.answering (AcceptedElicitation true))
                                Spec.sample_world eq_refl eq_refl)))).
Defined.




Lemma blank_strip (s : string) : Text.blank s = true -> Text.strip s = "".
Proof. unfold Text.blank, Text.strip. by intros ->%String.eqb_eq. Qed.










(** X13: reading never writes.  [get_all_notes], [read_notes_content] and
    [classify_stored_notes] return the world they were given: the same
    file, and no write added to the journal. *)
Theorem readers_leave_the_world (ctx : Routes.SamplingContext) (w : World.t) :
  fst (Routes.get_all_notes w) = w
  /\ fst (read_notes_content w) = w
  /\ fst (Routes.classify_stored_notes ctx w) = w.
Proof.
  split; [|split].
  - destruct w as [[content|] events]; [|reflexivity].
    unfold Routes.get_all_notes, get_all_notes, try_except, exists_, read,
      mbind, mret, io_bind, io_ret, bind, ret. simpl.
    by destruct (String.eqb (Text.strip content) "").
  - by rewrite read_notes_content_run.
  - unfold Routes.classify_stored_notes. rewrite read_notes_content_run.
    by destruct (_ || _).
Qed.

(** X14: [classify_stored_notes] does not call the language model when
    there is nothing to classify: if the notes file does not exist or holds
    white space only, it sends no sampling request and returns "Your notes
    are empty.", whatever model the client has. *)
Theorem classify_blank_notes_without_sampling (ctx : Routes.SamplingContext) (w : World.t) :
  Text.blank (Spec.content_of w) = true ->
  snd (Routes.classify_stored_notes ctx w)
  = {| Routes.sampled := []; Routes.returned := "Your notes are empty." |}.
Proof.
  intros Hblank. unfold Routes.classify_stored_notes.
  rewrite read_notes_content_run, (blank_strip _ Hblank).
  simpl. by rewrite orb_true_r.
Qed.

Lemma classify_blank_notes_without_sampling_witness :
  let w := {| notes := Some ("  " ++ nl); journal := [] |} in
  Text.blank (Spec.content_of w) = true
  /\ snd (Routes.classify_stored_notes {| Routes.client_model := fun _ => "never used" |} w)
     = {| Routes.sampled := []; Routes.returned := "Your notes are empty." |}.
Proof.
  split; [reflexivity|].
  exact (classify_blank_notes_without_sampling
           {| Routes.client_model := fun _ => "never used" |}
           {| notes := Some ("  " ++ nl); journal := [] |} eq_refl).
Defined.

Lemma contains_skip (n p h : string) :
  contains n h = true -> contains n (p ++ h) = true.
Proof.
  intros (a & b & ->)%contains_inv. rewrite <- append_assoc. apply contains_app.
Qed.

Lemma message_contains_notes (notes_content : string) :
  contains notes_content (build_classification_message notes_content) = true.
Proof.
  unfold build_classification_message.
  repeat first [ apply (contains_app "") | apply contains_skip ].
Qed.

(** X15: when the notes are not blank, [classify_stored_notes] sends
    exactly one sampling request, with at most 1000 tokens, whose message
    contains the stored notes verbatim, and returns the text of the model's
    answer to that request. *)
Theorem classify_sends_the_notes (ctx : Routes.SamplingContext) (w : World.t) :
  Text.strip (Spec.content_of w) ≠ "" ->
  exists request,
    snd (Routes.classify_stored_notes ctx w)
    = {| Routes.sampled := [request];
         Routes.returned := Routes.client_model ctx request |}
    /\ Routes.messages request = build_classification_message (Spec.content_of w)
    /\ contains (Spec.content_of w) (Routes.messages request) = true
    /\ Routes.max_tokens request = 1000%Z.
Proof.
  intros Hstrip. unfold Routes.classify_stored_notes.
  rewrite read_notes_content_run.
  assert (String.eqb (Spec.content_of w) "" = false) as ->.
  { apply String.eqb_neq. intros Heq. by rewrite Heq in Hstrip. }
  assert (String.eqb (Text.strip (Spec.content_of w)) "" = false) as ->
    by by apply String.eqb_neq.
  cbn [orb snd].
  exists {| Routes.messages := build_classification_message (Spec.content_of w);
            Routes.max_tokens := 1000; Routes.temperature := (2, 10)%Z |}.
  cbn [Routes.messages Routes.max_tokens].
  split; [reflexivity|]. split; [reflexivity|].
  split; [apply message_contains_notes | reflexivity].
Qed.

Lemma classify_sends_the_notes_witness :
  Text.strip (Spec.content_of Spec.sample_world) ≠ ""
  /\ exists request,
       snd (Routes.classify_stored_notes {| Routes.client_model := fun _ => "URGENT" |}
              Spec.sample_world)
       = {| Routes.sampled := [request]; Routes.returned := "URGENT" |}
       /\ contains Spec.sample_notes (Routes.messages request) = true.
Proof.
  assert (Text.strip (Spec.content_of Spec.sample_world) ≠ "") as Hne
    by (vm_compute; discriminate).
  split; [exact Hne|].
  destruct (classify_sends_the_notes {| Routes.client_model := fun _ => "URGENT" |}
              Spec.sample_world Hne) as (request & Hrun & _ & Hcontains & _).
  exists request. split; [exact Hrun | exact Hcontains].
Defined.

Lemma no_carriage_return_app (a b : string) :
  Spec.no_carriage_return (a ++ b)
  = Spec.no_carriage_return a && Spec.no_carriage_return b.
Proof.
  induction a as [|c a IH]; [reflexivity|].
  change (String c a ++ b) with (String c (a ++ b)).
  simpl. by rewrite IH, andb_assoc.
Qed.

Lemma no_carriage_return_universal_newlines (s : string) :
  Spec.no_carriage_return (Text.universal_newlines s) = true.
Proof.
  induction s as [|c s IH]; [reflexivity|].
  rewrite universal_newlines_cons.
  destruct (Ascii.eqb c Text.carriage_return) eqn:Hc.
  - destruct s as [|d s]; [reflexivity|].
    destruct (Ascii.eqb d Text.line_feed); [exact IH|].
    simpl. simpl in IH. by rewrite IH.
  - simpl. by rewrite Hc, IH.
Qed.

Lemma no_carriage_return_lines (content : string) :
  Spec.no_carriage_return content = true ->
  Forall (fun line => Spec.no_carriage_return line = true) (readlines content).
Proof.
  rewrite <- (joined_readlines content) at 1.
  induction (readlines content) as [|line lines IH]; [done|].
  rewrite joined_cons, no_carriage_return_app.
  intros [Hline Hlines]%andb_true_iff. apply Forall_cons. split; [done | by apply IH].
Qed.

Lemma carriage_return_in_no_line (before after : string) (lines : list string) :
  Forall (fun line => Spec.no_carriage_return line = true) lines ->
  Forall (fun line => contains (before ++ String Text.carriage_return after) line = false)
    lines.
Proof.
  intros Hfree. eapply Forall_impl; [exact Hfree|]. simpl. intros line Hline.
  destruct (contains _ line) eqn:Hc; [exfalso | done].
  apply contains_inv in Hc as (p & q & ->).
  rewrite !no_carriage_return_app in Hline. simpl in Hline.
  rewrite !andb_false_r in Hline. discriminate Hline.
Qed.

(** X25: a carriage return in a note is read back as a line break, so the
    note is no longer in the file as it was given: after [store_note] of a
    note with a carriage return, [delete_notes_containing] with that very
    note finds no line, deletes nothing and leaves the file as it is. *)
Theorem note_with_carriage_return_is_not_found (before after : string) (w : World.t) :
  Spec.no_carriage_return (Spec.content_of w) = true ->
  let note := before ++ String Text.carriage_return after in
  let stored := fst (store_note note w) in
  let run := delete_notes_containing note stored in
  Spec.no_carriage_return (Spec.content_of stored) = true
  /\ notes (fst run) = notes stored
  /\ Spec.deleted run = Some (Py.VInt 0).
Proof.
  intros Hfree note stored run. subst run stored.
  rewrite store_note_run. cbv zeta. cbn [fst].
  assert (Spec.no_carriage_return
            (Spec.content_of w ++ Text.universal_newlines (note ++ nl)) = true) as Hstored.
  { by rewrite no_carriage_return_app, Hfree, no_carriage_return_universal_newlines. }
  split; [exact Hstored|].
  apply delete_nothing, carriage_return_in_no_line, no_carriage_return_lines, Hstored.
Qed.

Lemma note_with_carriage_return_is_not_found_witness :
  let note := "buy" ++ String Text.carriage_return "eggs" in
  Spec.no_carriage_return (Spec.content_of Spec.sample_world) = true
  /\ readlines (Spec.content_of (fst (store_note note Spec.sample_world)))
     = ["buy milk" ++ nl; "urgent: call bob" ++ nl; "buy" ++ nl; "eggs" ++ nl]
  /\ Spec.deleted (delete_notes_containing note (fst (store_note note Spec.sample_world)))
     = Some (Py.VInt 0).
Proof.
  split; [reflexivity|]. split; [reflexivity|].
  exact (proj2 (proj2 (note_with_carriage_return_is_not_found "buy" "eggs"
                         Spec.sample_world eq_refl))).
Defined.

(** X26: a confirmation that fails is not caught.  When [ctx.elicit]
    raises, [delete_all_notes] and [delete_note] raise the same exception:
    they return no response, the question is the only thing that happened,
    and the notes file is as it was. *)
Theorem failed_confirmation_escapes (contained_text : string) (ctx : Routes.Context)
    (w : World.t) (e_all e_one : Py.exn) :
  Routes.front_end ctx Spec.prompt_all = Py.Raise e_all ->
  Routes.front_end ctx (Spec.prompt_containing contained_text) = Py.Raise e_one ->
  Routes.delete_all_notes ctx w = (Spec.asked ctx Spec.prompt_all w, Py.Raise e_all)
  /\ Routes.delete_note contained_text ctx w
     = (Spec.asked ctx (Spec.prompt_containing contained_text) w, Py.Raise e_one)
  /\ notes (fst (Routes.delete_all_notes ctx w)) = notes w
  /\ notes (fst (Routes.delete_note contained_text ctx w)) = notes w.
Proof.
  intros Hall Hone.
  assert (Routes.delete_all_notes ctx w = (Spec.asked ctx Spec.prompt_all w, Py.Raise e_all))
    as Hrun_all.
  { unfold Routes.delete_all_notes, Routes.elicit, Spec.asked, mbind, io_bind, bind.
    change (Routes.front_end ctx "Are you sure you want to delete ALL notes?")
      with (Routes.front_end ctx Spec.prompt_all).
    by rewrite Hall. }
  assert (Routes.delete_note contained_text ctx w
          = (Spec.asked ctx (Spec.prompt_containing contained_text) w, Py.Raise e_one))
    as Hrun_one.
  { unfold Routes.delete_note, Routes.elicit, Spec.asked, mbind, io_bind, bind.
    change ("Are you sure you want to delete all notes containing: '"
            ++ contained_text ++ "'?") with (Spec.prompt_containing contained_text).
    by rewrite Hone. }
  rewrite Hrun_all, Hrun_one. repeat split.
Qed.

Lemma failed_confirmation_escapes_witness :
  let ctx := {| Routes.front_end := fun _ => Py.Raise (Py.ValueError "not a boolean") |} in
  snd (Routes.delete_all_notes ctx Spec.sample_world)
  = Py.Raise (Py.ValueError "not a boolean")
  /\ notes (fst (Routes.delete_note "urgent" ctx Spec.sample_world))
     = Some Spec.sample_notes.
Proof.
  destruct (failed_confirmation_escapes "urgent"
              {| Routes.front_end := fun _ => Py.Raise (Py.ValueError "not a boolean") |}
              Spec.sample_world _ _ eq_refl eq_refl) as (Hall & _ & _ & Hone).
  split; [by rewrite Hall | exact Hone].
Defined.

End NoteStore.

(** * Further properties of the Origin validation and of the pipeline *)

Section MoreOriginValidation.

Context `{Runtime}.

Import Asgi HostOriginValidationMiddleware.

(** X16: the validation reads the scope type and the last Origin header
    and nothing else: two scopes that agree on these get the same outcome.
    The Host header, the method and every other header are not looked
    at. *)
Theorem validation_reads_only_origin (self : t) (scope scope' : Scope) :
  type scope = type scope' ->
  Spec.last_header "origin" (headers scope) = Spec.last_header "origin" (headers scope') ->
  validate self scope = validate self scope'.
Proof.
  intros Hty Horigin. unfold validate. by rewrite !dict_lookup, Hty, Horigin.
Qed.

Lemma validate_init_inner (inner inner' : App) (allowed : list string) (scope : Scope) :
  validate (__init__ inner allowed) scope = validate (__init__ inner' allowed) scope.
Proof. reflexivity. Qed.

(** X17: a request that fails the validation never reaches the inner
    application: the run of the middleware has no event and ends with the
    exception of the validation, whatever the inner application is. *)
Theorem refused_request_never_reaches_inner (inner inner' : App) (allowed : list string)
    (scope : Scope) (e : Py.exn) :
  validate (__init__ inner allowed) scope = Py.Raise e ->
  __call__ (__init__ inner' allowed) scope = ([], Py.Raise e).
Proof.
  intros Hv. apply call_of_rejection.
  by rewrite (validate_init_inner inner' inner).
Qed.

(** X18: with an empty allow-list every HTTP request that carries a
    non-empty Origin header is refused, whatever the header says, and the
    inner application is not called. *)
Theorem empty_allow_list_refuses_every_origin (inner : App) (scope : Scope) (origin : string) :
  type scope = "http" ->
  Spec.last_header "origin" (headers scope) = Some origin ->
  origin ≠ "" ->
  exists e,
    validate (__init__ inner []) scope = Py.Raise e
    /\ __call__ (__init__ inner []) scope = ([], Py.Raise e).
Proof.
  intros Hty Horigin Hne.
  assert (exists e, validate (__init__ inner []) scope = Py.Raise e) as [e He].
  { unfold validate. rewrite Hty, dict_lookup, Horigin. simpl.
    destruct origin as [|c origin]; [done|].
    destruct (bytes_decode (String c origin)) as [text|e]; simpl; [|by eexists].
    destruct (urlparse (str_lower text)) as [parsed|e]; simpl; [|by eexists].
    destruct (bool_decide _); simpl; [|by eexists].
    destruct (Urllib.hostname parsed) as [h|]; simpl; [|by eexists].
    rewrite bool_decide_eq_false_2 by apply not_elem_of_empty. simpl. by eexists. }
  exists e. split; [done|]. by apply call_of_rejection.
Qed.

(** X19: the allow-list counts as the set of its lower-cased entries: two
    lists with the same lower-cased entries, in any order and with any
    repetition, give the same outcome on every scope. *)
Theorem allow_list_is_a_set (inner : App) (allowed allowed' : list string) (scope : Scope) :
  (forall h, h ∈ map str_lower allowed <-> h ∈ map str_lower allowed') ->
  validate (__init__ inner allowed) scope = validate (__init__ inner allowed') scope.
Proof.
  intros Hsame.
  assert (allowed_hosts (__init__ inner allowed) = allowed_hosts (__init__ inner allowed'))
    as Hset.
  { apply set_eq. intros h. by rewrite !allowed_hosts_init. }
  unfold validate. by rewrite Hset.
Qed.

End MoreOriginValidation.

Section MoreOriginValidationWitnesses.

Import Asgi HostOriginValidationMiddleware.

Lemma validation_reads_only_origin_witness :
  let self := __init__ (H := PortableRuntime.runtime) (fun _ => respond 200) ["localhost"] in
  let scope := Spec.plain_request "http://localhost" in
  let scope' := {| type := "http"; method := "POST";
                   headers := [("host", "evil.example"); ("origin", "http://localhost")] |} in
  type scope = type scope'
  /\ validate (H := PortableRuntime.runtime) self scope'
     = validate (H := PortableRuntime.runtime) self scope.
Proof.
  split; [reflexivity|]. symmetry.
  exact (validation_reads_only_origin (H := PortableRuntime.runtime) _
           (Spec.plain_request "http://localhost")
           {| type := "http"; method := "POST";
              headers := [("host", "evil.example"); ("origin", "http://localhost")] |}
           eq_refl eq_refl).
Defined.

Lemma refused_request_never_reaches_inner_witness :
  Spec.origin_check ["localhost"] (Spec.plain_request "http://evil.example")
  = Py.Raise forbidden
  /\ __call__ (H := PortableRuntime.runtime)
       (__init__ (H := PortableRuntime.runtime) (fun _ => respond 204) ["localhost"])
       (Spec.plain_request "http://evil.example")
     = ([], Py.Raise forbidden).
Proof.
  assert (Spec.origin_check ["localhost"] (Spec.plain_request "http://evil.example")
          = Py.Raise forbidden) as Hv by (vm_compute; reflexivity).
  split; [exact Hv|].
  exact (refused_request_never_reaches_inner (H := PortableRuntime.runtime)
           (fun _ => respond 200) (fun _ => respond 204) ["localhost"]
           (Spec.plain_request "http://evil.example") forbidden Hv).
Defined.

Lemma empty_allow_list_refuses_every_origin_witness :
  type (Spec.plain_request "http://localhost") = "http"
  /\ "http://localhost" ≠ ""
  /\ exists e,
       Spec.origin_check [] (Spec.plain_request "http://localhost") = Py.Raise e.
Proof.
  assert ("http://localhost" ≠ "") as Hne by discriminate.
  split; [reflexivity|]. split; [exact Hne|].
  destruct (empty_allow_list_refuses_every_origin (H := PortableRuntime.runtime)
              (fun _ => respond 200) (Spec.plain_request "http://localhost")
              "http://localhost" eq_refl eq_refl Hne) as (e & He & _).
  exists e. exact He.
Defined.

Lemma allow_list_is_a_set_witness :
  (forall h, h ∈ map PortableRuntime.runtime.(str_lower) ["LocalHost"; "127.0.0.1"; "localhost"]
             <-> h ∈ map PortableRuntime.runtime.(str_lower) ["127.0.0.1"; "localhost"])
  /\ Spec.origin_check ["LocalHost"; "127.0.0.1"; "localhost"]
       (Spec.plain_request "http://localhost")
     = Spec.origin_check ["127.0.0.1"; "localhost"] (Spec.plain_request "http://localhost").
Proof.
  assert (forall h,
            h ∈ map PortableRuntime.runtime.(str_lower) ["LocalHost"; "127.0.0.1"; "localhost"]
            <-> h ∈ map PortableRuntime.runtime.(str_lower) ["127.0.0.1"; "localhost"])
    as Hsame.
  { intros h. vm_compute map. rewrite !elem_of_cons, !elem_of_nil. tauto. }
  split; [exact Hsame|].
  exact (allow_list_is_a_set (H := PortableRuntime.runtime) (fun _ => respond 200)
           ["LocalHost"; "127.0.0.1"; "localhost"] ["127.0.0.1"; "localhost"]
           (Spec.plain_request "http://localhost") Hsame).
Defined.

End MoreOriginValidationWitnesses.

Section MorePipeline.

Context `{Runtime}.

Import Asgi.

Lemma no_origin_header (hs : list (string * string)) :
  Starlette.CORSMiddleware.get "origin" hs = None -> Spec.last_header "origin" hs = None.
Proof.
  induction hs as [|[k v] hs IH]; [done|]. simpl.
  destruct (String.eqb k "origin"); [done|]. intros Hget. by rewrite (IH Hget).
Qed.

Lemma cors_without_origin (allow_origins : list string) (app : App) (scope : Scope) :
  Starlette.CORSMiddleware.get "origin" (headers scope) = None ->
  Starlette.CORSMiddleware.__call__ allow_origins app scope = app scope.
Proof.
  intros Hget. unfold Starlette.CORSMiddleware.__call__. rewrite Hget.
  by destruct (negb _).
Qed.

Lemma validation_without_origin (app : App) (allowed : list string) (scope : Scope) :
  Spec.last_header "origin" (headers scope) = None ->
  HostOriginValidationMiddleware.__call__
    (HostOriginValidationMiddleware.__init__ app allowed) scope = app scope.
Proof.
  intros Hnone. apply call_of_validate.
  unfold HostOriginValidationMiddleware.validate.
  rewrite dict_lookup, Hnone. by destruct (String.eqb _ _).
Qed.

Lemma server_error_ext (app app' : App) (scope : Scope) :
  app scope = app' scope ->
  Starlette.build Starlette.ServerErrorMiddleware app scope
  = Starlette.build Starlette.ServerErrorMiddleware app' scope.
Proof. intros Heq. cbn [Starlette.build Starlette.ServerErrorMiddleware]. by rewrite Heq. Qed.

(** X20: for a request without an Origin header the two middleware that
    [configure_middleware] adds change nothing: the configured application
    handles it exactly as the application did before the call. *)
Theorem configured_app_is_transparent_without_origin (inner : Starlette.t) (scope : Scope) :
  Starlette.CORSMiddleware.get "origin" (headers scope) = None ->
  Starlette.build_middleware_stack (Main.configure_middleware inner) scope
  = Starlette.build_middleware_stack inner scope.
Proof.
  intros Hget. unfold Starlette.build_middleware_stack.
  cbn [Main.configure_middleware Starlette.add_middleware Starlette.user_middleware
       Starlette.router List.app foldr Starlette.build].
  apply server_error_ext.
  rewrite (cors_without_origin _ _ _ Hget).
  by rewrite (validation_without_origin _ _ _ (no_origin_header _ Hget)).
Qed.

(** X21: the configured allow-list names hosts, and it is also the list of
    allowed origins of the CORS middleware, which compares the Origin
    header with its entries as text.  So a CORS preflight whose Origin is
    not literally one of the entries is answered 400 by the CORS layer, and
    neither the Origin validation nor the application sees it. *)
Theorem preflight_is_refused_by_cors (inner : Starlette.t) (scope : Scope)
    (origin requested_method : string) :
  type scope = "http" ->
  method scope = "OPTIONS" ->
  Starlette.CORSMiddleware.get "origin" (headers scope) = Some origin ->
  Starlette.CORSMiddleware.get "access-control-request-method" (headers scope)
  = Some requested_method ->
  origin ∉ Config.ALLOWED_ORIGINS ->
  Starlette.run (Main.configure_middleware inner) scope
  = ([Entered "CORSMiddleware"; ResponseStart 400], Py.Return tt).
Proof.
  intros Hty Hmethod Horigin Hrequested Hnot.
  unfold Starlette.run, Starlette.build_middleware_stack.
  cbn [Main.configure_middleware Starlette.add_middleware Starlette.user_middleware
       Starlette.router Starlette.instrument map List.app foldr Starlette.build
       Starlette.traced Starlette.cls Starlette.ServerErrorMiddleware].
  rewrite Hty. cbn [String.eqb Ascii.eqb Bool.eqb].
  unfold Starlette.CORSMiddleware.__call__.
  rewrite Hty, Horigin, Hrequested, Hmethod. cbn [String.eqb Ascii.eqb Bool.eqb negb].
  unfold Starlette.CORSMiddleware.preflight_response,
    Starlette.CORSMiddleware.is_allowed_origin.
  rewrite (bool_decide_eq_false_2 (origin ∈ Config.ALLOWED_ORIGINS)) by done.
  reflexivity.
Qed.

End MorePipeline.

Section MorePipelineWitnesses.

Import Asgi.

Lemma configured_app_is_transparent_without_origin_witness :
  let scope := {| type := "http"; method := "GET"; headers := [("host", "localhost")] |} in
  Starlette.CORSMiddleware.get "origin" (headers scope) = None
  /\ Starlette.build_middleware_stack
       (Main.configure_middleware (H := PortableRuntime.runtime) Spec.sample_app) scope
     = Starlette.build_middleware_stack Spec.sample_app scope.
Proof.
  split; [reflexivity|].
  exact (configured_app_is_transparent_without_origin (H := PortableRuntime.runtime)
           Spec.sample_app
           {| type := "http"; method := "GET"; headers := [("host", "localhost")] |}
           eq_refl).
Defined.

Lemma preflight_is_refused_by_cors_witness :
  ("http://localhost" ∉ Config.ALLOWED_ORIGINS)
  /\ Starlette.run (Main.configure_middleware (H := PortableRuntime.runtime) Spec.sample_app)
       (Spec.preflight_request "http://localhost")
     = ([Entered "CORSMiddleware"; ResponseStart 400], Py.Return tt).
Proof.
  assert ("http://localhost" ∉ Config.ALLOWED_ORIGINS) as Hnot.
  { unfold Config.ALLOWED_ORIGINS. rewrite !elem_of_cons, elem_of_nil.
    intros [Heq|[Heq|[]]]; discriminate Heq. }
  split; [exact Hnot|].
  exact (preflight_is_refused_by_cors (H := PortableRuntime.runtime) Spec.sample_app
           (Spec.preflight_request "http://localhost") "http://localhost" "POST"
           eq_refl eq_refl eq_refl eq_refl Hnot).
Defined.

End MorePipelineWitnesses.

(** * Further properties of the derived key and of the role check *)

Section MoreKeyAndRole.

Lemma get_in_string (i : nat) (s : string) (c : ascii) :
  String.get i s = Some c -> In c (list_ascii_of_string s).
Proof.
  revert i. induction s as [|d s IH]; intros i Hget; [done|].
  destruct i as [|i]; simpl in *.
  - injection Hget as ->. by left.
  - right. by apply (IH i).
Qed.

Lemma alphabet_url_safe :
  forallb (fun c => Spec.url_safe (Base64.urlsafe_char c))
    (list_ascii_of_string Base64.alphabet) = true.
Proof. vm_compute. reflexivity. Qed.

Lemma sextet_char_url_safe (n : N) :
  Spec.url_safe (Base64.urlsafe_char (Base64.char_of_sextet n)) = true.
Proof.
  unfold Base64.char_of_sextet.
  destruct (String.get (N.to_nat n) Base64.alphabet) as [c|] eqn:Hget; [|reflexivity].
  apply (proj1 (forallb_forall _ _) alphabet_url_safe c).
  by apply (get_in_string (N.to_nat n)).
Qed.

Lemma encoding_url_safe (l : list N) :
  Ascii7.forall_chars Spec.url_safe
    (Base64.translate Base64.urlsafe_char (Base64.encode_bytes l)) = true.
Proof.
  induction l as [|a|a b|a b c l IH] using list_ind3.
  - reflexivity.
  - simpl. by rewrite !sextet_char_url_safe.
  - simpl. by rewrite !sextet_char_url_safe.
  - simpl. by rewrite !sextet_char_url_safe, IH.
Qed.

Lemma url_safe_excludes (s : string) :
  Ascii7.forall_chars Spec.url_safe s = true ->
  Ascii7.exists_char (fun c => Ascii7.is_char "+" c || Ascii7.is_char "/" c) s = false.
Proof.
  induction s as [|c s IH]; [done|].
  change (Spec.url_safe c && Ascii7.forall_chars Spec.url_safe s = true ->
          (Ascii7.is_char "+" c || Ascii7.is_char "/" c)
          || Ascii7.exists_char
               (fun c => Ascii7.is_char "+" c || Ascii7.is_char "/" c) s = false).
  intros [Hc Hs]%andb_true_iff. rewrite (IH Hs), orb_false_r.
  unfold Ascii7.is_char.
  destruct (Ascii.eqb_spec "+" c) as [<-|_]; [discriminate Hc|].
  destruct (Ascii.eqb_spec "/" c) as [<-|_]; [discriminate Hc | reflexivity].
Qed.

(** X22: every character of a derived key is a letter, a digit, '-', '_'
    or the padding '='; the characters '+' and '/' of standard base64 never
    occur, whatever the secret. *)
Theorem derived_key_is_url_safe (secret : string) :
  Ascii7.forall_chars Spec.url_safe (Config.derive_fernet_key secret) = true
  /\ Ascii7.exists_char (fun c => Ascii7.is_char "+" c || Ascii7.is_char "/" c)
       (Config.derive_fernet_key secret) = false.
Proof.
  assert (Ascii7.forall_chars Spec.url_safe (Config.derive_fernet_key secret) = true) as Hsafe
    by apply encoding_url_safe.
  split; [exact Hsafe | by apply url_safe_excludes].
Qed.

(** X23: decoding a derived key as URL-safe base64 gives back the SHA-256
    digest of the secret, 32 bytes: the key is one the Fernet constructor
    accepts. *)
Theorem derived_key_decodes_to_digest (secret : string) :
  Base64.urlsafe_decode_bytes (Config.derive_fernet_key secret)
  = Sha256.bytes_of_string (Sha256.digest (Config.encode secret))
  /\ length (Base64.urlsafe_decode_bytes (Config.derive_fernet_key secret)) = 32%nat.
Proof.
  split; [apply derive_fernet_key_decodes|].
  by rewrite derive_fernet_key_decodes, length_bytes_of_string, length_digest.
Qed.

Context `{Runtime}.

Lemma lower_of_non_string (l : list Py.value) :
  existsb Spec.not_a_string l = true ->
  mapM Auth.lower l = Py.Raise (Py.AttributeError "object has no attribute 'lower'").
Proof.
  induction l as [|v l IH]; [done|]. simpl. intros Hex.
  destruct v as [| | |s| |]; try reflexivity.
  simpl in Hex. by rewrite (IH Hex).
Qed.

(** X24: one entry of the roles list that is not a string makes the role
    check raise, even when the required role is in the list: every entry
    is lower-cased before the list is searched. *)
Theorem has_role_raises_on_non_string_entry (role : string) (ctx : Auth.AuthContext)
    (realm_access : gmap string Py.value) (roles : list Py.value) :
  Auth.claims (Auth.token ctx) !! "realm_access" = Some (Py.VDict realm_access) ->
  realm_access !! "roles" = Some (Py.VList roles) ->
  existsb Spec.not_a_string roles = true ->
  Auth.has_role role ctx
  = Py.Raise (Py.AttributeError "object has no attribute 'lower'").
Proof.
  intros Hrealm Hroles Hbad. unfold Auth.has_role. rewrite Hrealm. simpl.
  rewrite Hroles. simpl. by rewrite (lower_of_non_string _ Hbad).
Qed.

End MoreKeyAndRole.

Section MoreKeyAndRoleWitnesses.

Lemma has_role_raises_on_non_string_entry_witness :
  let ctx :=
    {| Auth.token := {| Auth.claims :=
         {[ "realm_access" :=
              Py.VDict {[ "roles" := Py.VList [Py.VStr "mcp_read"; Py.VNone] ]} ]} |} |} in
  existsb Spec.not_a_string [Py.VStr "mcp_read"; Py.VNone] = true
  /\ Spec.has_role "mcp_read" ctx
     = Py.Raise (Py.AttributeError "object has no attribute 'lower'").
Proof.
  split; [reflexivity|].
  exact (has_role_raises_on_non_string_entry (H := PortableRuntime.runtime) "mcp_read"
           {| Auth.token := {| Auth.claims :=
                {[ "realm_access" :=
                     Py.VDict {[ "roles" := Py.VList [Py.VStr "mcp_read"; Py.VNone] ]} ]} |} |}
           {[ "roles" := Py.VList [Py.VStr "mcp_read"; Py.VNone] ]}
           [Py.VStr "mcp_read"; Py.VNone] eq_refl eq_refl eq_refl).
Defined.

End MoreKeyAndRoleWitnesses.
